(** * Worker lookup, date normaliser and connectivity probe of secteur-v13

    Shallow embedding of
    - [src/unnamed/part_000]   : first lookup module (dd/MM/yyyy-only
                                 [parseFrenchDate] built on [new Date]);
    - [src/unnamed/part_001]   : lookup module reading the body as text and
                                 the truncating [parseFrenchDate];
    - [src/client/lib/firebase.ts] : [testFirebaseConnection], the
                                 gender-aware [searchWorkerInGoogleSheet] and
                                 the UTC+1 shifting [parseFrenchDate].

    JS strings are modelled as [string] (lists of 8-bit characters). *)

From Stdlib Require Import String Ascii ZArith List Bool Lia.
From Stdlib Require Import FunctionalExtensionality Numbers.DecimalString.
Import ListNotations.
Open Scope string_scope.
Open Scope Z_scope.

(* ------------------------------------------------------------------ *)
(** ** JS string primitives *)
Module JS.

(** WhiteSpace and LineTerminator code points representable in 8 bits:
    TAB, LF, VT, FF, CR, SPACE, NBSP.  Used by [String.prototype.trim]
    and by the leading-whitespace skip of [parseInt]. *)
Definition is_space (c : ascii) : bool :=
  let n := nat_of_ascii c in
  (Nat.eqb n 9 || Nat.eqb n 10 || Nat.eqb n 11 || Nat.eqb n 12
   || Nat.eqb n 13 || Nat.eqb n 32 || Nat.eqb n 160)%bool.

Fixpoint trim_start (s : string) : string :=
  match s with
  | EmptyString => EmptyString
  | String c r => if is_space c then trim_start r else s
  end.

Definition rev_str (s : string) : string :=
  string_of_list_ascii (rev (list_ascii_of_string s)).

(** [s.trim()] *)
Definition trim (s : string) : string :=
  rev_str (trim_start (rev_str (trim_start s))).

(** [s.split(sep)] for a one-character separator. *)
Fixpoint split (sep : ascii) (s : string) : list string :=
  match s with
  | EmptyString => [EmptyString]
  | String c r =>
      if Ascii.eqb c sep then EmptyString :: split sep r
      else match split sep r with
           | [] => [String c EmptyString]
           | x :: xs => String c x :: xs
           end
  end.

(** [s.includes(sub)] *)
Fixpoint includes (s sub : string) : bool :=
  if String.prefix sub s then true
  else match s with
       | EmptyString => false
       | String _ r => includes r sub
       end.

(** [\d] of a JS regular expression: ASCII [0-9]. *)
Definition is_digit (c : ascii) : bool :=
  let n := nat_of_ascii c in (Nat.leb 48 n && Nat.leb n 57)%bool.

Definition digit_value (c : ascii) : Z := Z.of_nat (nat_of_ascii c) - 48.

(** Decimal text of an integral Number ([String(n)]) for the integers
    used here. *)
Definition Z_to_string (z : Z) : string :=
  NilEmpty.string_of_int (Z.to_int z).

(** [s.padStart(n, '0')] *)
Definition padStart0 (n : nat) (s : string) : string :=
  let l := String.length s in
  if Nat.leb n l then s
  else String.append (string_of_list_ascii (repeat "0"%char (n - l))) s.

End JS.

(* ------------------------------------------------------------------ *)
(** ** Numbers: [parseInt(s, 10)] *)
Module Num.

Fixpoint digits_prefix (acc : Z) (seen : bool) (s : string) : option Z :=
  match s with
  | String c r =>
      if JS.is_digit c then digits_prefix (acc * 10 + JS.digit_value c) true r
      else if seen then Some acc else None
  | EmptyString => if seen then Some acc else None
  end.

(** [parseInt(s, 10)]: skip leading white space, read an optional sign,
    then the longest run of decimal digits; [None] is [NaN].  The value is
    the mathematical integer; JS rounds it to a double beyond 2^53, which
    only [String(yearNum)] could show, and no statement below relies on
    years that large. *)
Definition parseInt10 (s : string) : option Z :=
  match JS.trim_start s with
  | String "-"%char r => option_map Z.opp (digits_prefix 0 false r)
  | String "+"%char r => digits_prefix 0 false r
  | s' => digits_prefix 0 false s'
  end.

End Num.

(* ------------------------------------------------------------------ *)
(** ** Date: the ECMAScript time value model *)
Module Date.

Definition msPerDay : Z := 86400000.

(** Days since 1970-01-01 of the proleptic Gregorian date y-m-d
    (m in 1..12): [MakeDay(y, m - 1, d)] for d in 1..31. *)
Definition days_from_civil (y m d : Z) : Z :=
  let y' := if m <=? 2 then y - 1 else y in
  let era := y' / 400 in
  let yoe := y' - era * 400 in
  let mp := if m >? 2 then m - 3 else m + 9 in
  let doy := (153 * mp + 2) / 5 + d - 1 in
  let doe := yoe * 365 + yoe / 4 - yoe / 100 + doy in
  era * 146097 + doe - 719468.

(** Inverse: (YearFromTime, MonthFromTime + 1, DateFromTime) of a day
    number. *)
Definition civil_from_days (z : Z) : Z * Z * Z :=
  let z := z + 719468 in
  let era := z / 146097 in
  let doe := z - era * 146097 in
  let yoe := (doe - doe / 1460 + doe / 36524 - doe / 146096) / 365 in
  let y := yoe + era * 400 in
  let doy := doe - (365 * yoe + yoe / 4 - yoe / 100) in
  let mp := (5 * doy + 2) / 153 in
  let d := doy - (153 * mp + 2) / 5 + 1 in
  let m := if mp <? 10 then mp + 3 else mp - 9 in
  ((if m <=? 2 then y + 1 else y), m, d).

(** The host's local time zone and its implementation-specific fallback
    parser for strings outside the Date Time String Format. *)
Record runtime := {
  local_tza : Z -> Z;                 (* LocalTZA(t, false), in ms *)
  fallback_parse : string -> option Z (* None is NaN *)
}.

(** TimeClip *)
Definition time_clip (t : Z) : option Z :=
  if Z.abs t <=? 8640000000000000 then Some t else None.

Fixpoint take_digits (n : nat) (l : list ascii) : option (Z * list ascii) :=
  match n with
  | O => Some (0, l)
  | S n' =>
      match l with
      | c :: r =>
          if JS.is_digit c then
            match take_digits n' r with
            | Some (v, r') => Some (JS.digit_value c * 10 ^ Z.of_nat n' + v, r')
            | None => None
            end
          else None
      | [] => None
      end
  end.

(** Fields of a string in the Date Time String Format
    [YYYY[-MM[-DD]]][THH:mm[:ss[.sss]][Z|+HH:mm|-HH:mm]] (years also as
    +YYYYYY / -YYYYYY). *)
Record fields := {
  f_year : Z; f_month : Z; f_day : Z;
  f_hour : Z; f_min : Z; f_sec : Z; f_ms : Z;
  f_has_time : bool;
  f_offset : option (option (Z * Z))  (* None: none given; Some None: Z;
                                          Some (Some (sign, minutes)) *)
}.

Definition opt_field (sep : ascii) (l : list ascii) (dflt : Z)
  : option (Z * list ascii) :=
  match l with
  | c :: r => if Ascii.eqb c sep then take_digits 2 r else Some (dflt, l)
  | [] => Some (dflt, l)
  end.

Definition parse_year (l : list ascii) : option (Z * list ascii) :=
  match l with
  | "+"%char :: r => take_digits 6 r
  | "-"%char :: r =>
      match take_digits 6 r with
      | Some (0, _) => None
      | Some (v, r') => Some (- v, r')
      | None => None
      end
  | _ => take_digits 4 l
  end.

Definition parse_offset (l : list ascii)
  : option (option (option (Z * Z)) * list ascii) :=
  match l with
  | "Z"%char :: r => Some (Some None, r)
  | c :: r =>
      if (Ascii.eqb c "+" || Ascii.eqb c "-")%bool then
        match take_digits 2 r with
        | Some (hh, ":"%char :: r1) =>
            match take_digits 2 r1 with
            | Some (mm, r2) =>
                if (hh <=? 23) && (mm <=? 59) then
                  Some (Some (Some (if Ascii.eqb c "+" then 1 else -1,
                                    hh * 60 + mm)), r2)
                else None
            | None => None
            end
        | _ => None
        end
      else Some (None, l)
  | [] => Some (None, l)
  end.

Definition parse_time (l : list ascii)
  : option (Z * Z * Z * Z * list ascii) :=
  match take_digits 2 l with
  | Some (h, ":"%char :: r1) =>
      match take_digits 2 r1 with
      | Some (mi, r2) =>
          match opt_field ":" r2 0 with
          | Some (s, r3) =>
              let with_sec := match r2 with ":"%char :: _ => true | _ => false end in
              match r3 with
              | "."%char :: r4 =>
                  if with_sec then
                    match take_digits 3 r4 with
                    | Some (ms, r5) => Some (h, mi, s, ms, r5)
                    | None => None
                    end
                  else None
              | _ => Some (h, mi, s, 0, r3)
              end
          | None => None
          end
      | None => None
      end
  | _ => None
  end.

Definition iso_fields (s : string) : option fields :=
  let l := list_ascii_of_string s in
  match parse_year l with
  | None => None
  | Some (y, r1) =>
      match opt_field "-" r1 1 with
      | None => None
      | Some (mo, r2) =>
          match (match r1 with "-"%char :: _ => opt_field "-" r2 1
                               | _ => Some (1, r2) end) with
          | None => None
          | Some (d, r3) =>
              match r3 with
              | [] => Some {| f_year := y; f_month := mo; f_day := d;
                              f_hour := 0; f_min := 0; f_sec := 0; f_ms := 0;
                              f_has_time := false; f_offset := None |}
              | "T"%char :: r4 =>
                  match parse_time r4 with
                  | Some (h, mi, sc, ms, r5) =>
                      match parse_offset r5 with
                      | Some (off, []) =>
                          Some {| f_year := y; f_month := mo; f_day := d;
                                  f_hour := h; f_min := mi; f_sec := sc;
                                  f_ms := ms; f_has_time := true;
                                  f_offset := off |}
                      | _ => None
                      end
                  | None => None
                  end
              | _ => None
              end
          end
      end
  end.

(** Out-of-bounds elements: MM in 01..12, DD in 01..31, HH in 00..24
    (24 only as 24:00:00.000), mm and ss in 00..59. *)
Definition fields_in_bounds (f : fields) : bool :=
  (1 <=? f_month f) && (f_month f <=? 12) && (1 <=? f_day f) && (f_day f <=? 31)
  && ((f_hour f <=? 23)
      || ((f_hour f =? 24) && (f_min f =? 0) && (f_sec f =? 0) && (f_ms f =? 0)))
  && (f_min f <=? 59) && (f_sec f <=? 59).

Definition make_date (f : fields) : Z :=
  (days_from_civil (f_year f) (f_month f) 1 + f_day f - 1) * msPerDay
  + (f_hour f * 3600000 + f_min f * 60000 + f_sec f * 1000 + f_ms f).

(** [Date.parse(s)], i.e. [new Date(s).getTime()]; [None] is NaN.
    Date-only forms are UTC, date-time forms without offset local time. *)
Definition parse (rt : runtime) (s : string) : option Z :=
  match iso_fields s with
  | None => fallback_parse rt s
  | Some f =>
      if fields_in_bounds f then
        let tv := make_date f in
        let t := match f_offset f with
                 | Some None => tv
                 | Some (Some (sg, mins)) => tv - sg * mins * 60000
                 | None => if f_has_time f then tv - local_tza rt tv else tv
                 end in
        time_clip t
      else None
  end.

(** [getUTCFullYear], [getUTCMonth() + 1], [getUTCDate()] of a valid
    time value. *)
Definition utc_ymd (t : Z) : Z * Z * Z := civil_from_days (t / msPerDay).

(** The calendar date [y, m, d] written [y-mm-dd]. *)
Definition ymd_text (ymd : Z * Z * Z) : string :=
  let '(y, m, d) := ymd in
  JS.Z_to_string y ++ "-" ++ JS.padStart0 2 (JS.Z_to_string m) ++ "-"
  ++ JS.padStart0 2 (JS.Z_to_string d).

(** [toISOString()] of a valid time value. *)
Definition toISOString (t : Z) : string :=
  let '(y, m, d) := utc_ymd t in
  let ms_of_day := t mod msPerDay in
  let p2 z := JS.padStart0 2 (JS.Z_to_string z) in
  let ys := if (0 <=? y) && (y <=? 9999) then JS.padStart0 4 (JS.Z_to_string y)
            else String.append (if y <? 0 then "-" else "+")
                               (JS.padStart0 6 (JS.Z_to_string (Z.abs y))) in
  ys ++ "-" ++ p2 m ++ "-" ++ p2 d ++ "T"
     ++ p2 (ms_of_day / 3600000) ++ ":" ++ p2 (ms_of_day / 60000 mod 60) ++ ":"
     ++ p2 (ms_of_day / 1000 mod 60) ++ "."
     ++ JS.padStart0 3 (JS.Z_to_string (ms_of_day mod 1000)) ++ "Z".

End Date.

(* ------------------------------------------------------------------ *)
(** ** The two regular expressions of [parseFrenchDate] *)
Module Re.

Fixpoint digits_n (n : nat) (l : list ascii) : option (list ascii) :=
  match n, l with
  | O, _ => Some l
  | S n', c :: r => if JS.is_digit c then digits_n n' r else None
  | S _, [] => None
  end.

Definition dash (l : list ascii) : option (list ascii) :=
  match l with "-"%char :: r => Some r | _ => None end.

(** [^\d{4}-\d{2}-\d{2}]: the rest of the input after it. *)
Definition ymd_prefix (l : list ascii) : option (list ascii) :=
  match digits_n 4 l with
  | Some r1 =>
      match dash r1 with
      | Some r2 =>
          match digits_n 2 r2 with
          | Some r3 =>
              match dash r3 with
              | Some r4 => digits_n 2 r4
              | None => None
              end
          | None => None
          end
      | None => None
      end
  | None => None
  end.

(** [/^\d{4}-\d{2}-\d{2}$/.test(s)] *)
Definition ymd_exact (s : string) : bool :=
  match ymd_prefix (list_ascii_of_string s) with
  | Some [] => true
  | _ => false
  end.

(** [/^\d{4}-\d{2}-\d{2}T/.test(s)] *)
Definition ymd_T (s : string) : bool :=
  match ymd_prefix (list_ascii_of_string s) with
  | Some ("T"%char :: _) => true
  | _ => false
  end.

(** The whole text is exactly [n] decimal digits. *)
Definition digits_exact (n : nat) (s : string) : bool :=
  match digits_n n (list_ascii_of_string s) with Some [] => true | _ => false end.

End Re.

(** Lines 133-148 of [src/unnamed/part_001] (identical in both later
    variants of [firebase.ts]): the dd/MM/yyyy branch.  [None] is the
    fall-through to [return null]. *)
Definition slash_branch (trimmed : string) : option string :=
  match JS.split "/" trimmed with
  | [day; month; year] =>
      match Num.parseInt10 day, Num.parseInt10 month, Num.parseInt10 year with
      | Some dayNum, Some monthNum, Some yearNum =>
          if (1 <=? dayNum) && (dayNum <=? 31) && (1 <=? monthNum)
             && (monthNum <=? 12) && (1900 <=? yearNum) then
            let paddedMonth := JS.padStart0 2 (JS.Z_to_string monthNum) in
            let paddedDay := JS.padStart0 2 (JS.Z_to_string dayNum) in
            Some (JS.Z_to_string yearNum ++ "-" ++ paddedMonth ++ "-" ++ paddedDay)
          else None
      | _, _, _ => None   (* a NaN fails every comparison *)
      end
  | _ => None
  end.

(** [parts[0]] of the result of [split], which is never empty. *)
Definition first_part (parts : list string) : string := hd "" parts.

(* ------------------------------------------------------------------ *)
(** ** [parseFrenchDate], src/unnamed/part_000 (lines 88-103) *)
Module Part000.

Definition parseFrenchDate (rt : Date.runtime) (dateStr : string) : option string :=
  if String.eqb dateStr "" then None else
  let parts := JS.split "/" dateStr in
  match parts with
  | [day; month; year] =>
      match Date.parse rt (year ++ "-" ++ month ++ "-" ++ day) with
      | None => None                                  (* isNaN(date.getTime()) *)
      | Some t => Some (first_part (JS.split "T" (Date.toISOString t)))
      end
  | _ => None
  end.

End Part000.

(* ------------------------------------------------------------------ *)
(** ** [parseFrenchDate], src/unnamed/part_001 (lines 115-152); the same
    text is the last function of [firebase.ts] (lines 573-610).
    Date-times are truncated at the ['T']. *)
Module Part001.

Definition parseFrenchDate (dateStr : string) : option string :=
  if String.eqb dateStr "" then None else
  let trimmed := JS.trim dateStr in
  if String.eqb trimmed "" then None else
  if Re.ymd_exact trimmed then Some trimmed else
  if Re.ymd_T trimmed then Some (first_part (JS.split "T" trimmed)) else
  slash_branch trimmed.

End Part001.

(* ------------------------------------------------------------------ *)
(** ** [parseFrenchDate], src/client/lib/firebase.ts (lines 425-483).
    Date-times are read as an instant and shifted by one hour (UTC+1). *)
Module Shifted.

(** [String(x)] of a Number that may be NaN. *)
Definition num_to_string (x : option Z) : string :=
  match x with Some z => JS.Z_to_string z | None => "NaN" end.

Definition parseFrenchDate (rt : Date.runtime) (dateStr : string) : option string :=
  if String.eqb dateStr "" then None else
  let trimmed := JS.trim dateStr in
  if String.eqb trimmed "" then None else
  if Re.ymd_exact trimmed then Some trimmed else
  if Re.ymd_T trimmed then
    (* the enclosing try never catches: [new Date] does not throw *)
    let date := Date.parse rt trimmed in
    let moroccoDayMs := option_map (fun t => t + 1 * 60 * 60 * 1000) date in
    let moroccoDate := match moroccoDayMs with
                       | Some ms => Date.time_clip ms
                       | None => None
                       end in
    let ymd := option_map Date.utc_ymd moroccoDate in
    let year := option_map (fun '(y, _, _) => y) ymd in
    let month := JS.padStart0 2 (num_to_string (option_map (fun '(_, m, _) => m) ymd)) in
    let day := JS.padStart0 2 (num_to_string (option_map (fun '(_, _, d) => d) ymd)) in
    Some (num_to_string year ++ "-" ++ month ++ "-" ++ day)
  else slash_branch trimmed.

End Shifted.

(* ------------------------------------------------------------------ *)
(** ** JSON values as the lookup code reads them *)
Module Json.

#[local] Set Warnings "-register-all".

(** A parsed JSON value.  A number is kept as its JS [ToString] text
    (["0"] for both zeros), which fixes both its truthiness and its
    [String(...)] conversion, the only things the code uses. *)
Inductive json :=
| JNull
| JBool (b : bool)
| JNum (repr : string)
| JStr (s : string)
| JArr (items : list json)
| JObj (members : list (string * json)).

(** ToBoolean *)
Definition truthy (v : json) : bool :=
  match v with
  | JNull => false
  | JBool b => b
  | JNum r => negb (String.eqb r "0")
  | JStr s => negb (String.eqb s "")
  | JArr _ | JObj _ => true
  end.

(** [String(v)]; an array is joined with [","], its [null] items as [""].
    [None] is a TypeError.  An object converts through [ToPrimitive]: a
    member of its own named ["toString"] hides [Object.prototype.toString],
    and as JSON gives it no callable value, [valueOf] is tried next, which
    returns the object itself, not a primitive: the conversion throws.
    Without such a member the object reads ["[object Object]"]. *)
Fixpoint to_string (v : json) : option string :=
  match v with
  | JNull => Some "null"
  | JBool true => Some "true"
  | JBool false => Some "false"
  | JNum r => Some r
  | JStr s => Some s
  | JArr items =>
      let fix join (l : list json) : option string :=
        match l with
        | [] => Some ""
        | [x] => match x with JNull => Some "" | _ => to_string x end
        | x :: r =>
            match (match x with JNull => Some "" | _ => to_string x end), join r with
            | Some a, Some b => Some (a ++ "," ++ b)
            | _, _ => None
            end
        end in
      join items
  | JObj members =>
      if existsb (fun m => String.eqb (fst m) "toString") members then None
      else Some "[object Object]"
  end.

(** [row[i]]: [None] is [undefined]. *)
Definition index (row : list json) (i : nat) : option json := nth_error row i.

(** [String(row[i] || '')]; [None]: [String] throws. *)
Definition field_or_empty (x : option json) : option string :=
  match x with
  | Some v => if truthy v then to_string v else Some ""
  | None => Some ""
  end.

End Json.
Import Json.

(* ------------------------------------------------------------------ *)
(** ** The HTTP request of the lookup *)
Module Http.

(** What [fetch] yields: a rejection (network or CORS error), or a
    response with its status and the result of [response.text()]
    ([None] when reading the body rejects). *)
Inductive fetch_outcome :=
| FetchRejected
| Response (status : Z) (text : option string).

(** [response.ok] *)
Definition ok (status : Z) : bool := (200 <=? status) && (status <=? 299).

(** A lookup as an interaction: either done, or one [fetch] of [url]
    whose outcome chooses the rest. *)
Inductive lookup (A : Type) :=
| LDone (r : option A)
| LFetch (url : string) (k : fetch_outcome -> lookup A).
Arguments LDone {A} r.
Arguments LFetch {A} url k.

Definition hex_digit (n : nat) : ascii :=
  ascii_of_nat (if Nat.ltb n 10 then 48 + n else 55 + n).

Definition percent (n : nat) : string :=
  String "%" (String (hex_digit (n / 16)) (String (hex_digit (n mod 16)) "")).

Definition unreserved (c : ascii) : bool :=
  let n := nat_of_ascii c in
  (JS.is_digit c || (Nat.leb 65 n && Nat.leb n 90) || (Nat.leb 97 n && Nat.leb n 122)
   || existsb (Ascii.eqb c) ["-"; "_"; "."; "!"; "~"; "*"; "'"; "("; ")"]%char)%bool.

(** [encodeURIComponent]: code points above 127 are sent as their two
    UTF-8 bytes. *)
Fixpoint encodeURIComponent (s : string) : string :=
  match s with
  | EmptyString => ""
  | String c r =>
      let n := nat_of_ascii c in
      (if unreserved c then String c ""
       else if Nat.ltb n 128 then percent n
       else percent (192 + n / 64) ++ percent (128 + n mod 64))
      ++ encodeURIComponent r
  end.

End Http.
Import Http.

(** [searchValue] is missing or blank: the guard of every lookup. *)
Definition blank_search (searchValue : string) : bool :=
  String.eqb searchValue "" || Nat.eqb (String.length (JS.trim searchValue)) 0.

(** The common prefix of the response handling, up to [const row = data[0]]
    and its shape check; [None] is every [return null] on the way, and the
    [catch] of a rejected [fetch], [text()] or [JSON.parse]. *)
Definition first_row (JSON_parse : string -> option json) (o : fetch_outcome)
  : option (list json) :=
  match o with
  | FetchRejected => None
  | Response status body =>
      if negb (Http.ok status) then None else
      match body with
      | None => None
      | Some text =>
          if String.eqb text "" then None else
          match JSON_parse text with
          | None => None
          | Some data =>
              if negb (truthy data) then None else
              match data with
              | JArr [] => None
              | JArr (row :: _) =>
                  match row with
                  | JArr cells => if Nat.ltb (length cells) 14 then None else Some cells
                  | _ => None
                  end
              | _ => None
              end
          end
      end
  end.

(* ------------------------------------------------------------------ *)
(** ** [searchWorkerInGoogleSheet], src/unnamed/part_001 (lines 18-107) *)
Module Part001Lookup.

Definition GOOGLE_SCRIPT_URL : string :=
  "https://script.google.com/macros/s/AKfycby9HLiqYrDEV8yKeNji3UIFsm3DeeKgiAgBVygCOP7Vl2YG8VFeDUXQepfgcgYau8tHSg/exec".

Record GoogleSheetWorker := {
  matricule : string;
  nom_complet : string;
  cin : string;
  date_entree : string
}.

(** Lines 81-97: the record, then its check.  A [String(...)] that
    throws leaves for the [catch], which returns null. *)
Definition worker_of_row (row : list json) : option GoogleSheetWorker :=
  match field_or_empty (index row 0), field_or_empty (index row 2),
        field_or_empty (index row 3), field_or_empty (index row 13) with
  | Some m, Some n, Some c, Some d =>
      let worker := {| matricule := m; nom_complet := n; cin := c; date_entree := d |} in
      if String.eqb (matricule worker) "" && String.eqb (cin worker) "" then None
      else Some worker
  | _, _, _, _ => None
  end.

Definition searchWorkerInGoogleSheet (JSON_parse : string -> option json)
  (searchValue : string) : lookup GoogleSheetWorker :=
  if blank_search searchValue then LDone None else
  let url := GOOGLE_SCRIPT_URL ++ "?search="
             ++ encodeURIComponent (JS.trim searchValue) in
  LFetch url (fun response =>
    LDone (match first_row JSON_parse response with
           | Some row => worker_of_row row
           | None => None
           end)).

End Part001Lookup.

(* ------------------------------------------------------------------ *)
(** ** [searchWorkerInGoogleSheet], src/client/lib/firebase.ts
    (lines 294-417), with the gender column *)
Module FirebaseLookup.

Definition GOOGLE_SCRIPT_URL : string := Part001Lookup.GOOGLE_SCRIPT_URL.

Record GoogleSheetWorker := {
  matricule : string;
  nom_complet : string;
  cin : string;
  sexe : string;
  date_entree : string
}.

(** [toUpperCase] on 8-bit text: a-z and the Latin-1 letters E0..FE
    (but F7) move up by 32; the three letters whose capital lies outside
    8 bits are left as they are (no capital of theirs is ['H'] or ['M']). *)
Definition upper_char (c : ascii) : ascii :=
  let n := nat_of_ascii c in
  if (Nat.leb 97 n && Nat.leb n 122)
     || (Nat.leb 224 n && Nat.leb n 254 && negb (Nat.eqb n 247)) then
    ascii_of_nat (n - 32)
  else c.

Fixpoint toUpperCase (s : string) : string :=
  match s with
  | EmptyString => EmptyString
  | String c r => String (upper_char c) (toUpperCase r)
  end.

(** [convertGenderCode(code)], applied to the text of [row[4] || ''] *)
Definition convertGenderCode (code : string) : string :=
  let upperCode := JS.trim (toUpperCase code) in
  if String.eqb upperCode "H" then "homme"
  else if String.eqb upperCode "M" then "femme"
  else "".

(** Lines 384-404: the record, then its check.  [convertGenderCode]
    receives [row[4] || ''] and converts it with [String(code || '')], the
    same text as [String(row[4] || '')]; a [String(...)] that throws
    leaves for the [catch], which returns null. *)
Definition worker_of_row (row : list json) : option GoogleSheetWorker :=
  match field_or_empty (index row 0), field_or_empty (index row 2),
        field_or_empty (index row 3), field_or_empty (index row 4),
        field_or_empty (index row 13) with
  | Some m, Some n, Some c, Some g, Some d =>
      let worker := {| matricule := m; nom_complet := n; cin := c;
                       sexe := convertGenderCode g; date_entree := d |} in
      if String.eqb (matricule worker) "" && String.eqb (cin worker) "" then None
      else Some worker
  | _, _, _, _, _ => None
  end.

Definition searchWorkerInGoogleSheet (JSON_parse : string -> option json)
  (searchValue : string) : lookup GoogleSheetWorker :=
  if blank_search searchValue then LDone None else
  let url := GOOGLE_SCRIPT_URL ++ "?search="
             ++ encodeURIComponent (JS.trim searchValue) in
  LFetch url (fun response =>
    LDone (match first_row JSON_parse response with
           | Some row => worker_of_row row
           | None => None
           end)).

End FirebaseLookup.

(* ------------------------------------------------------------------ *)
(** ** [testFirebaseConnection], src/client/lib/firebase.ts (lines 61-156) *)
Module Probe.

(** [{ success: boolean; error?: string }] *)
Record conn_result := { success : bool; error : option string }.

(** The fields of a caught error the handler reads ([undefined] is
    [None]). *)
Record js_error := {
  code : option string;
  message : option string;
  name : option string
}.

(** [new Error('Connection timeout')] *)
Definition timeout_error : js_error :=
  {| code := None; message := Some "Connection timeout"; name := Some "Error" |}.

(** How [Promise.race([getDoc(testDoc), timeoutPromise])] settles. *)
Inductive race_outcome :=
| DocResolved                     (* getDoc fulfils first *)
| DocRejected (e : js_error)      (* getDoc rejects first *)
| TimerFired.                     (* the 30 s timer rejects first *)

(** The probe as an interaction with its environment. *)
Inductive probe :=
| PDone (r : conn_result)
| POnline (k : bool -> probe)                       (* navigator.onLine *)
| PCurrentUser (k : bool -> probe)                  (* auth.currentUser != null *)
| PGetDoc (collection id : string) (timeout_ms : Z)
          (k : race_outcome -> probe)               (* the raced getDoc *)
| PSleep (ms : Z) (k : probe).                      (* await setTimeout(delay) *)

Definition maxRetries : nat := 3.

(** [error.message?.includes(sub)] *)
Definition msg_includes (e : js_error) (sub : string) : bool :=
  match message e with Some m => JS.includes m sub | None => false end.

Definition code_is (e : js_error) (c : string) : bool :=
  match code e with Some c' => String.eqb c' c | None => false end.

(** [if (error.code)] *)
Definition code_truthy (e : js_error) : option string :=
  match code e with Some c => if String.eqb c "" then None else Some c | None => None end.

(** [errorMessage] as computed at lines 130-142. *)
Definition errorMessage (e : js_error) : string :=
  match code_truthy e with
  | Some c => "Firebase error: " ++ c
  | None =>
      if msg_includes e "timeout" then "Connection timeout - server may be slow, retrying..."
      else if msg_includes e "fetch" || msg_includes e "Failed to fetch" then
        "Network connectivity issue - check your internet connection"
      else if (match name e with Some n => String.eqb n "TypeError" | None => false end)
              && msg_includes e "fetch" then "Network error - try refreshing the page"
      else "Connection failed"
  end.

(** The retry test of line 145, without the [retryCount] bound. *)
Definition retry_classified (e : js_error) : bool :=
  msg_includes e "timeout" || msg_includes e "fetch" || msg_includes e "Failed to fetch".

Definition msg_permission : string :=
  "Firestore rules not deployed. Deploy rules via Firebase Console.".
Definition msg_precondition : string :=
  "Firestore database not created - please initialize database in Firebase Console".
Definition msg_unavailable : string :=
  "Firebase backend temporarily unavailable. Client will operate in offline mode.".

(** The catch block (lines 97-155); [next] is the recursive call
    [testFirebaseConnection(retryCount + 1)]. *)
Definition on_error (next : probe) (retryCount : nat) (e : js_error) : probe :=
  if code_is e "permission-denied" then PDone {| success := false; error := Some msg_permission |}
  else if code_is e "failed-precondition" then
    PDone {| success := false; error := Some msg_precondition |}
  else if code_is e "unavailable" then
    PDone {| success := false; error := Some msg_unavailable |}
  else if retry_classified e && Nat.ltb retryCount maxRetries then
    PSleep (2000 * 2 ^ Z.of_nat retryCount) next
  else PDone {| success := false; error := Some (errorMessage e) |}.

(** One invocation [testFirebaseConnection(retryCount)], with the
    recursive call given as [next]. *)
Definition attempt (next : probe) (retryCount : nat) : probe :=
  POnline (fun onLine =>
    if negb onLine then PDone {| success := false; error := Some "Device is offline" |}
    else PCurrentUser (fun currentUser =>
      if negb currentUser then PDone {| success := true; error := None |}
      else PGetDoc "app_config" "connection_test" 30000 (fun o =>
        match o with
        | DocResolved => PDone {| success := true; error := None |}
        | DocRejected e => on_error next retryCount e
        | TimerFired => on_error next retryCount timeout_error
        end))).

(** The recursion: [fuel] counts the retries still allowed; the
    recursive call is reached only while [retryCount < maxRetries], where
    the fuel [maxRetries - retryCount] is positive (see
    [testFirebaseConnection_unfold]). *)
Fixpoint go (fuel : nat) (retryCount : nat) : probe :=
  match fuel with
  | O => attempt (PDone {| success := false; error := None |}) retryCount
  | S f => attempt (go f (S retryCount)) retryCount
  end.

Definition testFirebaseConnection (retryCount : nat) : probe :=
  go (maxRetries - retryCount) retryCount.

(** What the environment answers, and what the probe does. *)
Inductive answer :=
| AOnline (b : bool)
| AUser (b : bool)
| ARace (o : race_outcome).

Inductive event :=
| EvOnline
| EvUser
| EvGetDoc (collection id : string)
| EvSleep (ms : Z).

(** Run a probe against a list of answers; [None] when they do not fit. *)
Fixpoint run (p : probe) (ans : list answer) : option (conn_result * list event) :=
  match p with
  | PDone r => Some (r, [])
  | POnline k =>
      match ans with
      | AOnline b :: ans' =>
          option_map (fun '(r, tr) => (r, EvOnline :: tr)) (run (k b) ans')
      | _ => None
      end
  | PCurrentUser k =>
      match ans with
      | AUser b :: ans' =>
          option_map (fun '(r, tr) => (r, EvUser :: tr)) (run (k b) ans')
      | _ => None
      end
  | PGetDoc col id _ k =>
      match ans with
      | ARace o :: ans' =>
          option_map (fun '(r, tr) => (r, EvGetDoc col id :: tr)) (run (k o) ans')
      | _ => None
      end
  | PSleep ms k => option_map (fun '(r, tr) => (r, EvSleep ms :: tr)) (run k ans)
  end.

(** Errors the retry branch is reached with: not one of the three
    terminal codes, and a message naming a timeout or a fetch. *)
Definition transient_error (e : js_error) : bool :=
  retry_classified e
  && negb (code_is e "permission-denied" || code_is e "failed-precondition"
           || code_is e "unavailable").

Definition outcome_error (o : race_outcome) : js_error :=
  match o with DocRejected e => e | _ => timeout_error end.

Definition transient (o : race_outcome) : bool :=
  match o with
  | DocResolved => false
  | DocRejected e => transient_error e
  | TimerFired => true
  end.

Definition sleeps (tr : list event) : list Z :=
  flat_map (fun ev => match ev with EvSleep ms => [ms] | _ => [] end) tr.

(** The events of one attempt that reaches the remote check. *)
Definition probe_prefix : list event :=
  [EvOnline; EvUser; EvGetDoc "app_config" "connection_test"].

(** The number of [getDoc] reads in a trace. *)
Definition reads (tr : list event) : nat :=
  length (filter (fun ev => match ev with EvGetDoc _ _ => true | _ => false end) tr).

End Probe.

(** A runtime in UTC whose fallback parser rejects everything. *)
Definition utc_runtime : Date.runtime :=
  {| Date.local_tza := fun _ => 0; Date.fallback_parse := fun _ => None |}.

(** Running a lookup: the result and the URLs fetched, each [fetch]
    settling with [o]. *)
Fixpoint run_lookup {A} (p : lookup A) (o : fetch_outcome) : option A * list string :=
  match p with
  | LDone r => (r, [])
  | LFetch url k => let '(r, urls) := run_lookup (k o) o in (r, url :: urls)
  end.

(** The URL both lookups fetch. *)
Definition lookup_url (searchValue : string) : string :=
  Part001Lookup.GOOGLE_SCRIPT_URL ++ "?search=" ++ encodeURIComponent (JS.trim searchValue).

(** The failure causes of a lookup response. *)
Inductive lookup_failure (JSON_parse : string -> option json) : fetch_outcome -> Prop :=
| LF_network :
    lookup_failure JSON_parse FetchRejected
| LF_status status body :
    Http.ok status = false -> lookup_failure JSON_parse (Response status body)
| LF_unreadable status :
    lookup_failure JSON_parse (Response status None)
| LF_empty_body status :
    lookup_failure JSON_parse (Response status (Some ""))
| LF_malformed status text :
    JSON_parse text = None -> lookup_failure JSON_parse (Response status (Some text))
| LF_not_array status text v :
    JSON_parse text = Some v -> (forall l, v <> JArr l) ->
    lookup_failure JSON_parse (Response status (Some text))
| LF_empty_array status text :
    JSON_parse text = Some (JArr []) ->
    lookup_failure JSON_parse (Response status (Some text))
| LF_row_not_array status text row rest :
    JSON_parse text = Some (JArr (row :: rest)) -> (forall l, row <> JArr l) ->
    lookup_failure JSON_parse (Response status (Some text))
| LF_short_row status text cells rest :
    JSON_parse text = Some (JArr (JArr cells :: rest)) -> (length cells < 14)%nat ->
    lookup_failure JSON_parse (Response status (Some text)).

(** The row of the spec's example: 14 fields, [index 1 = "x"]. *)
Definition jane_row : list json :=
  [JStr "M123"; JStr "x"; JStr "Jane Doe"; JStr "CIN99"; JStr "M"; JNull; JNull;
   JNull; JNull; JNull; JNull; JNull; JNull; JStr "15/06/2020"].

(** An error whose message says ["Failed to fetch"] (transport-classified)
    but whose code is ["unavailable"]. *)
Definition unavailable_fetch_error : Probe.js_error :=
  {| Probe.code := Some "unavailable"; Probe.message := Some "Failed to fetch";
     Probe.name := Some "FirebaseError" |}.

(** Four consecutive online, signed-in attempts whose check is rejected
    with the given error. *)
Definition four_rejections (e : Probe.js_error) : list Probe.answer :=
  concat (repeat [Probe.AOnline true; Probe.AUser true;
                  Probe.ARace (Probe.DocRejected e)] 4).

(* ------------------------------------------------------------------ *)
(** ** [searchWorkerInGoogleSheet], src/unnamed/part_000 (lines 18-81);
    the same text is the second lookup of [firebase.ts] (lines 492-556),
    there with the [part_001] deployment URL.  The body is read with
    [response.json()]: reading and parsing in one step, with no test for
    an empty body. *)
Module Part000Lookup.

Definition GOOGLE_SCRIPT_URL : string :=
  "https://script.google.com/macros/s/AKfycbwWdJe14BQLOrmwbwerjU6HyGQh-G13nKS1g1JHBk6VY8-4BdE7VzkthtR1fBvD5M3s-g/exec".

(** Lines 39-60: [None] is every [return null] on the way, and the
    [catch] of a rejected [fetch] or [json()]. *)
Definition first_row_json (JSON_parse : string -> option json) (o : fetch_outcome)
  : option (list json) :=
  match o with
  | FetchRejected => None
  | Response status body =>
      if negb (Http.ok status) then None else
      match body with
      | None => None
      | Some text =>
          match JSON_parse text with
          | None => None
          | Some data =>
              if negb (truthy data) then None else
              match data with
              | JArr [] => None
              | JArr (row :: _) =>
                  match row with
                  | JArr cells => if Nat.ltb (length cells) 14 then None else Some cells
                  | _ => None
                  end
              | _ => None
              end
          end
      end
  end.

(** The record and its construction (lines 6-11, 62-73) are those of
    [part_001]. *)
Definition searchWorkerInGoogleSheet (JSON_parse : string -> option json)
  (searchValue : string) : lookup Part001Lookup.GoogleSheetWorker :=
  if blank_search searchValue then LDone None else
  LFetch (GOOGLE_SCRIPT_URL ++ "?search=" ++ encodeURIComponent (JS.trim searchValue))
    (fun response =>
       LDone (match first_row_json JSON_parse response with
              | Some row => Part001Lookup.worker_of_row row
              | None => None
              end)).

End Part000Lookup.

(* ------------------------------------------------------------------ *)
(** ** [aggressiveFirebaseRecovery], src/client/lib/firebase.ts
    (lines 234-287) *)
Module Recovery.

(** The query of a URL as its [URLSearchParams] list. *)
Definition params := list (string * string).

Definition named (k : string) (p : string * string) : bool := String.eqb (fst p) k.

Fixpoint set_first (k v : string) (l : params) : params :=
  match l with
  | [] => []
  | p :: r =>
      if named k p then (k, v) :: filter (fun q => negb (named k q)) r
      else p :: set_first k v r
  end.

(** [searchParams.set(k, v)]: the first pair named [k] gets the value
    [v] and the other pairs named [k] are removed; without one, [(k, v)]
    is appended. *)
Definition searchParams_set (l : params) (k v : string) : params :=
  if existsb (named k) l then set_first k v l else (l ++ [(k, v)])%list.

(** [searchParams.get(k)] *)
Definition searchParams_get (l : params) (k : string) : option string :=
  option_map snd (find (named k) l).

(** What the recovery does to the browser. *)
Inductive effect :=
| EClearLocal                    (* localStorage.clear() *)
| EClearSession                  (* sessionStorage.clear() *)
| EDeleteDatabase (name : string)  (* indexedDB.deleteDatabase(name) *)
| EUnregister (n : nat)          (* registrations[n].unregister() *)
| EDeleteCache (name : string)   (* caches.delete(name) *)
| ENavigate (query : params).    (* window.location.href = url *)

(** How an operation ends: it returns (its promise fulfils), it throws
    (its promise rejects), or its promise never settles, as an IndexedDB
    deletion blocked by an open connection to the database, which fires
    neither [onsuccess] nor [onerror].  A synchronous call
    ([localStorage.clear()], [sessionStorage.clear()]) returns or throws:
    [Pending] is read there as a return. *)
Inductive outcome := Settled | Failed | Pending.

Definition is_failed (o : outcome) : bool := match o with Failed => true | _ => false end.
Definition is_pending (o : outcome) : bool := match o with Pending => true | _ => false end.

(** What a listing call ([indexedDB.databases()],
    [getRegistrations()], [caches.keys()]) resolves to. *)
Inductive listing (A : Type) :=
| Lists (xs : A)
| ListRejects
| ListPending.
Arguments Lists {A} xs.
Arguments ListRejects {A}.
Arguments ListPending {A}.

(** The browser: which APIs exist ([in] tests) and what the listing calls
    give. *)
Record browser := {
  has_indexedDB : bool;
  databases : listing (list string);
  has_serviceWorker : bool;
  registrations : listing nat;
  has_caches : bool;
  cache_keys : listing (list string)
}.

(** How a step of [clearStorage] ends: it completes, it throws (to the
    [catch]), or it waits for ever at its [await]. *)
Inductive step_end := Completes | Throws | Waits.

(** A synchronous call. *)
Definition sync_step (out : effect -> outcome) (e : effect) : list effect * step_end :=
  ([e], if is_failed (out e) then Throws else Completes).

(** [await Promise.all(ops)]: every operation is started; the promise
    rejects as soon as one of them rejects, and otherwise fulfils once all
    of them have fulfilled. *)
Definition all_step (out : effect -> outcome) (es : list effect) : list effect * step_end :=
  (es, if existsb (fun e => is_failed (out e)) es then Throws
       else if existsb (fun e => is_pending (out e)) es then Waits
       else Completes).

(** [if (api in ...) { const xs = await listing(); await Promise.all(...) }] *)
Definition listing_step {A} (out : effect -> outcome) (present : bool) (l : listing A)
  (ops : A -> list effect) : list effect * step_end :=
  if present then
    match l with
    | Lists xs => all_step out (ops xs)
    | ListRejects => ([], Throws)
    | ListPending => ([], Waits)
    end
  else ([], Completes).

(** The body of [clearStorage]: steps run in order while they complete.
    The operations started, and whether [clearStorage] settles: a throw
    goes to the [catch], which resolves; a wait never resumes. *)
Fixpoint run_steps (l : list (list effect * step_end)) : list effect * bool :=
  match l with
  | [] => ([], true)
  | (es, Completes) :: r => let (es', settles) := run_steps r in ((es ++ es')%list, settles)
  | (es, Throws) :: _ => (es, true)
  | (es, Waits) :: _ => (es, false)
  end.

Definition clearStorage (b : browser) (out : effect -> outcome) : list effect * bool :=
  run_steps
    [sync_step out EClearLocal;
     sync_step out EClearSession;
     listing_step out (has_indexedDB b) (databases b) (map EDeleteDatabase);
     listing_step out (has_serviceWorker b) (registrations b)
                  (fun n => map EUnregister (seq 0 n));
     listing_step out (has_caches b) (cache_keys b) (map EDeleteCache)].

(** Lines 281-283: the query of the reload URL. *)
Definition reload_query (query : params) (now : Z) : params :=
  searchParams_set (searchParams_set query "cache_bust" (JS.Z_to_string now))
                   "force_reload" "true".

(** [aggressiveFirebaseRecovery()] from a page whose query is [query], at
    [Date.now() = now]: the operations it starts, in order; once
    [clearStorage] settles, its [then] navigates. *)
Definition aggressiveFirebaseRecovery (b : browser) (out : effect -> outcome)
  (query : params) (now : Z) : list effect :=
  let (es, settles) := clearStorage b out in
  (es ++ if settles then [ENavigate (reload_query query now)] else [])%list.

End Recovery.

(* ------------------------------------------------------------------ *)
(** ** The proleptic Gregorian calendar, for statements about
    [new Date('YYYY-MM-DD')] *)
Module Calendar.

Definition leap (y : Z) : bool :=
  ((y mod 4 =? 0) && negb (y mod 100 =? 0)) || (y mod 400 =? 0).

Definition days_in_month (y m : Z) : Z :=
  if m =? 2 then (if leap y then 29 else 28)
  else if (m =? 4) || (m =? 6) || (m =? 9) || (m =? 11) then 30 else 31.

(** A number written with at least [n] digits, zero-padded. *)
Definition pad (n : nat) (z : Z) : string := JS.padStart0 n (JS.Z_to_string z).

(** [D/M/Y] written [DD/MM/YYYY], and [Y-M-D] written [YYYY-MM-DD]. *)
Definition dmy (y m d : Z) : string := pad 2 d ++ "/" ++ pad 2 m ++ "/" ++ pad 4 y.
Definition ymd (y m d : Z) : string := pad 4 y ++ "-" ++ pad 2 m ++ "-" ++ pad 2 d.

(** [f lo && f (lo + 1) && ... && f (lo + n - 1)] *)
Fixpoint zforall (f : Z -> bool) (lo : Z) (n : nat) : bool :=
  match n with O => true | S k => f lo && zforall f (lo + 1) k end.

(** [pad n z] read back by the date-string scanner gives [z]. *)
Definition reads_back (n : nat) (z : Z) : bool :=
  match Date.take_digits n (list_ascii_of_string (pad n z)) with
  | Some (v, []) => v =? z
  | _ => false
  end.

End Calendar.

(* ------------------------------------------------------------------ *)
(** ** Auxiliary definitions for the statements and proofs below *)

(** The characters [encodeURIComponent] may write: unreserved ones and
    the ['%'] of an escape (whose hexadecimal digits are unreserved). *)
Definition url_safe (c : ascii) : bool := Http.unreserved c || Ascii.eqb c "%".

(** The value of an upper-case hexadecimal digit. *)
Definition hex_value (c : ascii) : nat :=
  let n := nat_of_ascii c in if Nat.leb n 57 then n - 48 else n - 55.

(** Reading back the first character of an [encodeURIComponent] output
    (one unreserved character, one escape, or the two escapes of a
    two-byte UTF-8 sequence): a device of the injectivity proof. *)
Definition decode1 (s : string) : option (ascii * string) :=
  match s with
  | EmptyString => None
  | String c r =>
      if Ascii.eqb c "%" then
        match r with
        | String h1 (String h2 r1) =>
            let b1 := (hex_value h1 * 16 + hex_value h2)%nat in
            if Nat.ltb b1 128 then Some (ascii_of_nat b1, r1) else
            match r1 with
            | String _ (String h3 (String h4 r2)) =>
                Some (ascii_of_nat ((b1 - 192) * 64 + (hex_value h3 * 16 + hex_value h4 - 128))%nat,
                      r2)
            | _ => None
            end
        | _ => None
        end
      else Some (c, r)
  end.

(** A parser that reads one response text as the table of [jane_row]. *)
Definition jane_table (text : string) : option json :=
  if String.eqb text "" then None else Some (JArr [JArr jane_row]).

(** The fields the two record types share. *)
Definition drop_sexe (w : FirebaseLookup.GoogleSheetWorker) : Part001Lookup.GoogleSheetWorker :=
  {| Part001Lookup.matricule := FirebaseLookup.matricule w;
     Part001Lookup.nom_complet := FirebaseLookup.nom_complet w;
     Part001Lookup.cin := FirebaseLookup.cin w;
     Part001Lookup.date_entree := FirebaseLookup.date_entree w |}.

(* ================================================================== *)
(** * Properties *)

(** ** Strings *)

Lemma is_digit_not_space c : JS.is_digit c = true -> JS.is_space c = false.
Proof.
  intros H; destruct c as [[] [] [] [] [] [] [] []]; vm_compute in H |- *;
    congruence.
Qed.

Lemma is_space_not_slash : JS.is_space "/" = false.
Proof. reflexivity. Qed.

Lemma trim_start_all_space s :
  forallb JS.is_space (list_ascii_of_string s) = true -> JS.trim_start s = "".
Proof.
  induction s as [|c s IH]; simpl; [reflexivity|].
  intros H; apply andb_prop in H as [Hc Hs]; rewrite Hc; auto.
Qed.

Lemma trim_all_space s :
  forallb JS.is_space (list_ascii_of_string s) = true -> JS.trim s = "".
Proof.
  intros H; unfold JS.trim; rewrite (trim_start_all_space s H); reflexivity.
Qed.

Lemma rev_str_cons a l :
  JS.rev_str (string_of_list_ascii (a :: l))
  = string_of_list_ascii (rev l ++ [a])%list.
Proof.
  unfold JS.rev_str; rewrite list_ascii_of_string_of_list_ascii; reflexivity.
Qed.

Lemma trim_id s a m b :
  list_ascii_of_string s = (a :: m ++ [b])%list ->
  JS.is_space a = false -> JS.is_space b = false -> JS.trim s = s.
Proof.
  intros Hl Ha Hb.
  rewrite <- (string_of_list_ascii_of_string s), Hl.
  unfold JS.trim; simpl; rewrite Ha.
  change (String a (string_of_list_ascii (m ++ [b])))
    with (string_of_list_ascii (a :: m ++ [b])).
  rewrite rev_str_cons, rev_app_distr; simpl; rewrite Hb.
  change (String b (string_of_list_ascii (rev m ++ [a])))
    with (string_of_list_ascii (b :: rev m ++ [a])).
  rewrite rev_str_cons, rev_app_distr, rev_involutive; reflexivity.
Qed.

Lemma split_no_sep sep s :
  ~ In sep (list_ascii_of_string s) -> JS.split sep s = [s].
Proof.
  induction s as [|c s IH]; simpl; [reflexivity|].
  intros Hn.
  destruct (Ascii.eqb c sep) eqn:E.
  - apply Ascii.eqb_eq in E; subst; tauto.
  - rewrite IH by tauto; reflexivity.
Qed.

Lemma split_first sep p r :
  ~ In sep p ->
  first_part (JS.split sep (string_of_list_ascii (p ++ sep :: r)%list))
  = string_of_list_ascii p.
Proof.
  unfold first_part; induction p as [|c p IH]; simpl; intros Hn.
  - rewrite Ascii.eqb_refl; reflexivity.
  - destruct (Ascii.eqb c sep) eqn:E.
    + apply Ascii.eqb_eq in E; subst; tauto.
    + specialize (IH ltac:(tauto)).
      destruct (JS.split sep (string_of_list_ascii (p ++ sep :: r))) eqn:Es;
        simpl in *; rewrite <- IH; reflexivity.
Qed.

(** ** The regular expressions *)

Lemma digits_n_app n l r :
  Re.digits_n n l = Some r ->
  exists p, l = (p ++ r)%list /\ length p = n /\ Forall (fun c => JS.is_digit c = true) p.
Proof.
  revert l; induction n as [|n IH]; intros l H; simpl in H.
  - inversion H; subst; exists []; auto.
  - destruct l as [|c l]; [discriminate|].
    destruct (JS.is_digit c) eqn:Ec; [|discriminate].
    destruct (IH l H) as (p & -> & Hlen & Hall).
    exists (c :: p); simpl; auto.
Qed.

Lemma digits_n_app_inv p r :
  Forall (fun c => JS.is_digit c = true) p ->
  Re.digits_n (length p) (p ++ r)%list = Some r.
Proof.
  induction 1 as [|c p Hc _ IH]; simpl; [reflexivity|].
  rewrite Hc; exact IH.
Qed.

Lemma ymd_prefix_inv l r :
  Re.ymd_prefix l = Some r ->
  exists p1 p2 p3,
    l = (p1 ++ "-"%char :: p2 ++ "-"%char :: p3 ++ r)%list
    /\ length p1 = 4%nat /\ length p2 = 2%nat /\ length p3 = 2%nat
    /\ Forall (fun c => JS.is_digit c = true) p1
    /\ Forall (fun c => JS.is_digit c = true) p2
    /\ Forall (fun c => JS.is_digit c = true) p3.
Proof.
  unfold Re.ymd_prefix; intros H.
  destruct (Re.digits_n 4 l) as [r1|] eqn:E1; [|discriminate].
  apply digits_n_app in E1 as (p1 & -> & L1 & D1).
  destruct r1 as [|c1 r1]; [discriminate|].
  unfold Re.dash at 1 in H.
  destruct c1 as [[] [] [] [] [] [] [] []]; try discriminate.
  destruct (Re.digits_n 2 r1) as [r2|] eqn:E2; [|discriminate].
  apply digits_n_app in E2 as (p2 & -> & L2 & D2).
  destruct r2 as [|c2 r2]; [discriminate|].
  unfold Re.dash in H.
  destruct c2 as [[] [] [] [] [] [] [] []]; try discriminate.
  apply digits_n_app in H as (p3 & -> & L3 & D3).
  exists p1, p2, p3; repeat split; auto.
Qed.

Lemma ymd_prefix_app p1 p2 p3 r :
  length p1 = 4%nat -> length p2 = 2%nat -> length p3 = 2%nat ->
  Forall (fun c => JS.is_digit c = true) p1 ->
  Forall (fun c => JS.is_digit c = true) p2 ->
  Forall (fun c => JS.is_digit c = true) p3 ->
  Re.ymd_prefix (p1 ++ "-"%char :: p2 ++ "-"%char :: p3 ++ r)%list = Some r.
Proof.
  intros L1 L2 L3 D1 D2 D3; unfold Re.ymd_prefix.
  rewrite <- L1, digits_n_app_inv by exact D1; cbn -[Re.digits_n].
  destruct p2 as [|a [|b [|]]]; try discriminate.
  destruct p3 as [|c [|d [|]]]; try discriminate.
  inversion D2 as [|? ? Ha D2']; inversion D2' as [|? ? Hb _].
  inversion D3 as [|? ? Hc D3']; inversion D3' as [|? ? Hd _].
  cbn -[JS.is_digit]; rewrite Ha, Hb; cbn -[JS.is_digit]; rewrite Hc, Hd; reflexivity.
Qed.

Lemma ymd_exact_inv s :
  Re.ymd_exact s = true ->
  exists p1 p2 p3,
    list_ascii_of_string s = (p1 ++ "-"%char :: p2 ++ "-"%char :: p3)%list
    /\ length p1 = 4%nat /\ length p2 = 2%nat /\ length p3 = 2%nat
    /\ Forall (fun c => JS.is_digit c = true) p1
    /\ Forall (fun c => JS.is_digit c = true) p2
    /\ Forall (fun c => JS.is_digit c = true) p3.
Proof.
  unfold Re.ymd_exact; intros H.
  destruct (Re.ymd_prefix (list_ascii_of_string s)) as [[|c r]|] eqn:E;
    try discriminate.
  apply ymd_prefix_inv in E as (p1 & p2 & p3 & El & HH).
  rewrite app_nil_r in El.
  exists p1, p2, p3; split; [exact El | exact HH].
Qed.

Lemma digit_not_slash c : JS.is_digit c = true -> c <> "/"%char.
Proof. intros H ->; discriminate. Qed.

Lemma ymd_shape_no_sep sep p1 p2 p3 :
  JS.is_digit sep = false -> sep <> "-"%char ->
  Forall (fun c => JS.is_digit c = true) p1 ->
  Forall (fun c => JS.is_digit c = true) p2 ->
  Forall (fun c => JS.is_digit c = true) p3 ->
  ~ In sep (p1 ++ "-"%char :: p2 ++ "-"%char :: p3)%list.
Proof.
  intros Hs Hd D1 D2 D3 Hin.
  assert (Hdig : forall l, Forall (fun c => JS.is_digit c = true) l -> ~ In sep l).
  { intros l Hl Hi. rewrite Forall_forall in Hl. specialize (Hl _ Hi). congruence. }
  apply in_app_or in Hin as [Hin|[Hin|Hin]].
  - exact (Hdig _ D1 Hin).
  - congruence.
  - apply in_app_or in Hin as [Hin|[Hin|Hin]].
    + exact (Hdig _ D2 Hin).
    + congruence.
    + exact (Hdig _ D3 Hin).
Qed.

Lemma ymd_shape_trim s p1 p2 p3 r :
  list_ascii_of_string s = (p1 ++ "-"%char :: p2 ++ "-"%char :: p3 ++ r)%list ->
  length p1 = 4%nat ->
  Forall (fun c => JS.is_digit c = true) p1 ->
  (exists m b, r = (m ++ [b])%list /\ JS.is_space b = false) \/
  (r = [] /\ length p3 = 2%nat /\ Forall (fun c => JS.is_digit c = true) p3) ->
  JS.trim s = s.
Proof.
  intros El L1 D1 Hr.
  destruct p1 as [|a p1']; [discriminate|].
  inversion D1 as [|? ? Ha _]; subst.
  destruct Hr as [(m & b & -> & Hb)|(-> & L3 & D3)].
  - apply (trim_id s a (p1' ++ "-"%char :: p2 ++ "-"%char :: p3 ++ m)%list b).
    + rewrite El; simpl;
      repeat (rewrite <- app_assoc || rewrite <- app_comm_cons); reflexivity.
    + now apply is_digit_not_space.
    + exact Hb.
  - destruct p3 as [|c [|d [|]]]; try discriminate.
    inversion D3 as [|? ? _ D3']; inversion D3' as [|? ? Hd _]; subst.
    apply (trim_id s a (p1' ++ "-"%char :: p2 ++ ["-"%char; c])%list d).
    + rewrite El; simpl;
      repeat (rewrite <- app_assoc || rewrite <- app_comm_cons); reflexivity.
    + now apply is_digit_not_space.
    + now apply is_digit_not_space.
Qed.

Lemma canonical_trim s : Re.ymd_exact s = true -> JS.trim s = s.
Proof.
  intros H; destruct (ymd_exact_inv s H) as (p1 & p2 & p3 & El & L1 & L2 & L3 & D1 & D2 & D3).
  apply (ymd_shape_trim s p1 p2 p3 []); [rewrite app_nil_r; exact El|exact L1|exact D1|].
  right; auto.
Qed.

Lemma canonical_nonempty s : Re.ymd_exact s = true -> String.eqb s "" = false.
Proof. destruct s; [discriminate|reflexivity]. Qed.

Lemma canonical_no_slash s :
  Re.ymd_exact s = true -> ~ In "/"%char (list_ascii_of_string s).
Proof.
  intros H; destruct (ymd_exact_inv s H) as (p1 & p2 & p3 & El & _ & _ & _ & D1 & D2 & D3).
  rewrite El; apply ymd_shape_no_sep; auto; discriminate.
Qed.

(** [parseFrenchDate] of the two later variants on canonical input. *)
Lemma part001_canonical s :
  Re.ymd_exact s = true -> Part001.parseFrenchDate s = Some s.
Proof.
  intros H; unfold Part001.parseFrenchDate.
  rewrite canonical_nonempty, canonical_trim, canonical_nonempty, H by exact H.
  reflexivity.
Qed.

Lemma shifted_canonical rt s :
  Re.ymd_exact s = true -> Shifted.parseFrenchDate rt s = Some s.
Proof.
  intros H; unfold Shifted.parseFrenchDate.
  rewrite canonical_nonempty, canonical_trim, canonical_nonempty, H by exact H.
  reflexivity.
Qed.

Lemma part000_canonical rt s :
  Re.ymd_exact s = true -> Part000.parseFrenchDate rt s = None.
Proof.
  intros H; unfold Part000.parseFrenchDate.
  rewrite canonical_nonempty by exact H.
  rewrite split_no_sep by (apply canonical_no_slash; exact H).
  reflexivity.
Qed.

Lemma all_space_blank s :
  forallb JS.is_space (list_ascii_of_string s) = true ->
  String.eqb s "" = true \/ (String.eqb s "" = false /\ JS.trim s = "").
Proof.
  intros H; destruct (String.eqb s "") eqn:E; [left; reflexivity|].
  right; split; [reflexivity|]; now apply trim_all_space.
Qed.

Lemma blank_search_all_space s :
  forallb JS.is_space (list_ascii_of_string s) = true -> blank_search s = true.
Proof.
  intros H; unfold blank_search.
  destruct (all_space_blank s H) as [E|[E T]]; rewrite E; [reflexivity|].
  rewrite T; reflexivity.
Qed.

Lemma first_row_failure JSON_parse o :
  lookup_failure JSON_parse o -> first_row JSON_parse o = None.
Proof.
  destruct 1 as [| st b Hst | st | st | st tx Hp | st tx v Hp Hv | st tx Hp
                 | st tx row rest Hp Hrow | st tx cells rest Hp Hlen];
    unfold first_row; try reflexivity.
  - rewrite Hst; reflexivity.
  - destruct (Http.ok st); reflexivity.
  - destruct (Http.ok st); reflexivity.
  - destruct (Http.ok st); simpl; [|reflexivity].
    destruct (String.eqb tx ""); [reflexivity|]; rewrite Hp; reflexivity.
  - destruct (Http.ok st); simpl; [|reflexivity].
    destruct (String.eqb tx ""); [reflexivity|]; rewrite Hp.
    destruct (negb (truthy v)); [reflexivity|].
    destruct v; try reflexivity; exfalso; eapply Hv; reflexivity.
  - destruct (Http.ok st); simpl; [|reflexivity].
    destruct (String.eqb tx ""); [reflexivity|]; rewrite Hp; reflexivity.
  - destruct (Http.ok st); simpl; [|reflexivity].
    destruct (String.eqb tx ""); [reflexivity|]; rewrite Hp; simpl.
    destruct row; try reflexivity; exfalso; eapply Hrow; reflexivity.
  - destruct (Http.ok st); simpl; [|reflexivity].
    destruct (String.eqb tx ""); [reflexivity|]; rewrite Hp; simpl.
    apply Nat.ltb_lt in Hlen; rewrite Hlen; reflexivity.
Qed.

Lemma first_row_ok JSON_parse status text row rest :
  Http.ok status = true -> text <> "" ->
  JSON_parse text = Some (JArr (JArr row :: rest)) -> (14 <= length row)%nat ->
  first_row JSON_parse (Response status (Some text)) = Some row.
Proof.
  intros Hok Ht Hp Hl; unfold first_row; rewrite Hok; simpl.
  apply String.eqb_neq in Ht; rewrite Ht, Hp; simpl.
  apply Nat.ltb_ge in Hl; rewrite Hl; reflexivity.
Qed.

Lemma string_of_list_ascii_app a b :
  string_of_list_ascii (a ++ b)%list = string_of_list_ascii a ++ string_of_list_ascii b.
Proof. induction a as [|c a IH]; simpl; [reflexivity|]; rewrite IH; reflexivity. Qed.

Lemma datetime_shape x :
  Re.ymd_T x = true ->
  exists p1 p2 p3 r,
    list_ascii_of_string x = (p1 ++ "-"%char :: p2 ++ "-"%char :: p3 ++ "T"%char :: r)%list
    /\ length p1 = 4%nat /\ length p2 = 2%nat /\ length p3 = 2%nat
    /\ Forall (fun c => JS.is_digit c = true) p1
    /\ Forall (fun c => JS.is_digit c = true) p2
    /\ Forall (fun c => JS.is_digit c = true) p3.
Proof.
  unfold Re.ymd_T; intros H.
  destruct (Re.ymd_prefix (list_ascii_of_string x)) as [[|c r]|] eqn:E; try discriminate.
  destruct c as [[] [] [] [] [] [] [] []]; try discriminate.
  apply ymd_prefix_inv in E as (p1 & p2 & p3 & El & HH).
  exists p1, p2, p3, r; split; [exact El|exact HH].
Qed.

Lemma datetime_not_canonical x : Re.ymd_T x = true -> Re.ymd_exact x = false.
Proof.
  unfold Re.ymd_T, Re.ymd_exact; intros H.
  destruct (Re.ymd_prefix (list_ascii_of_string x)) as [[|c r]|]; congruence.
Qed.

Lemma datetime_trim_nonempty s :
  Re.ymd_T (JS.trim s) = true ->
  String.eqb s "" = false /\ String.eqb (JS.trim s) "" = false.
Proof.
  intros H; split.
  - destruct s; [discriminate|reflexivity].
  - destruct (JS.trim s); [discriminate|reflexivity].
Qed.

(** The truncating normaliser on a [YYYY-MM-DDT...] input: the ten
    characters before the ['T']. *)
Lemma part001_datetime s :
  Re.ymd_T (JS.trim s) = true ->
  exists d rest, JS.trim s = d ++ "T" ++ rest /\ Re.ymd_exact d = true
                 /\ Part001.parseFrenchDate s = Some d.
Proof.
  intros H.
  destruct (datetime_trim_nonempty s H) as [E1 E2].
  destruct (datetime_shape _ H) as (p1 & p2 & p3 & r & El & L1 & L2 & L3 & D1 & D2 & D3).
  set (p := (p1 ++ "-"%char :: p2 ++ "-"%char :: p3)%list).
  assert (Elp : list_ascii_of_string (JS.trim s) = (p ++ "T"%char :: r)%list).
  { rewrite El; unfold p; simpl; repeat (rewrite <- app_assoc || rewrite <- app_comm_cons);
    reflexivity. }
  exists (string_of_list_ascii p), (string_of_list_ascii r); split; [|split].
  - rewrite <- (string_of_list_ascii_of_string (JS.trim s)), Elp.
    rewrite string_of_list_ascii_app; reflexivity.
  - unfold Re.ymd_exact; rewrite list_ascii_of_string_of_list_ascii; unfold p.
    rewrite <- (app_nil_r p3), ymd_prefix_app; auto.
  - unfold Part001.parseFrenchDate; rewrite E1, E2, datetime_not_canonical, H by exact H.
    f_equal.
    rewrite <- (string_of_list_ascii_of_string (JS.trim s)), Elp.
    apply split_first; unfold p; apply ymd_shape_no_sep; auto; discriminate.
Qed.

(** The UTC+1 normaliser on a [YYYY-MM-DDT...] input denoting the instant
    [t]: the UTC calendar date of [t] plus one hour. *)
Lemma shifted_datetime rt s t :
  Re.ymd_T (JS.trim s) = true ->
  Date.parse rt (JS.trim s) = Some t ->
  Z.abs (t + 3600000) <= 8640000000000000 ->
  Shifted.parseFrenchDate rt s = Some (Date.ymd_text (Date.utc_ymd (t + 3600000))).
Proof.
  intros H Hp Hr.
  destruct (datetime_trim_nonempty s H) as [E1 E2].
  unfold Shifted.parseFrenchDate; rewrite E1, E2, datetime_not_canonical, H by exact H.
  rewrite Hp; cbn -[Date.utc_ymd JS.padStart0 JS.Z_to_string].
  unfold Date.time_clip; apply Z.leb_le in Hr; rewrite Hr.
  cbn [option_map]; unfold Date.ymd_text; destruct (Date.utc_ymd (t + 3600000)) as [[y m] d]; reflexivity.
Qed.

Lemma digits_exact_spec n x :
  Re.digits_exact n x = true ->
  length (list_ascii_of_string x) = n
  /\ Forall (fun c => JS.is_digit c = true) (list_ascii_of_string x).
Proof.
  unfold Re.digits_exact; intros H.
  destruct (Re.digits_n n (list_ascii_of_string x)) as [[|c r]|] eqn:E; try discriminate.
  apply digits_n_app in E as (p & El & L & D); rewrite app_nil_r in El.
  rewrite El; auto.
Qed.

Lemma years_four_digits_check :
  forallb (fun k => Re.digits_exact 4 (JS.Z_to_string (Z.of_nat k))) (seq (Z.to_nat 1900) (Z.to_nat 8100)) = true.
Proof. vm_compute; reflexivity. Qed.

Lemma padded_two_digits_check :
  forallb (fun k => Re.digits_exact 2 (JS.padStart0 2 (JS.Z_to_string (Z.of_nat k))))
          (seq (Z.to_nat 1) (Z.to_nat 31)) = true.
Proof. vm_compute; reflexivity. Qed.

Lemma in_range_check (lo n : Z) (f : nat -> bool) (z : Z) :
  0 <= lo -> 0 <= n ->
  forallb f (seq (Z.to_nat lo) (Z.to_nat n)) = true -> lo <= z < lo + n ->
  f (Z.to_nat z) = true.
Proof.
  intros H0 Hn Hall Hz; rewrite forallb_forall in Hall; apply Hall, in_seq; lia.
Qed.

Lemma year_four_digits y :
  1900 <= y <= 9999 -> Re.digits_exact 4 (JS.Z_to_string y) = true.
Proof.
  intros Hy.
  pose proof (in_range_check 1900 8100
                (fun k => Re.digits_exact 4 (JS.Z_to_string (Z.of_nat k))) y
                ltac:(lia) ltac:(lia) years_four_digits_check ltac:(lia)) as H.
  cbv beta in H; rewrite Z2Nat.id in H by lia; exact H.
Qed.

Lemma pad_two_digits z :
  1 <= z <= 31 -> Re.digits_exact 2 (JS.padStart0 2 (JS.Z_to_string z)) = true.
Proof.
  intros Hz.
  pose proof (in_range_check 1 31
                (fun k => Re.digits_exact 2 (JS.padStart0 2 (JS.Z_to_string (Z.of_nat k)))) z
                ltac:(lia) ltac:(lia) padded_two_digits_check ltac:(lia)) as H.
  cbv beta in H; rewrite Z2Nat.id in H by lia; exact H.
Qed.

Lemma ymd_text_canonical y m d :
  1900 <= y <= 9999 -> 1 <= m <= 12 -> 1 <= d <= 31 ->
  Re.ymd_exact (Date.ymd_text (y, m, d)) = true.
Proof.
  intros Hy Hm Hd.
  destruct (digits_exact_spec _ _ (year_four_digits y Hy)) as [L1 D1].
  destruct (digits_exact_spec _ _ (pad_two_digits m ltac:(lia))) as [L2 D2].
  destruct (digits_exact_spec _ _ (pad_two_digits d Hd)) as [L3 D3].
  unfold Re.ymd_exact, Date.ymd_text.
  rewrite <- (string_of_list_ascii_of_string (JS.Z_to_string y)),
          <- (string_of_list_ascii_of_string (JS.padStart0 2 (JS.Z_to_string m))),
          <- (string_of_list_ascii_of_string (JS.padStart0 2 (JS.Z_to_string d))).
  change "-" with (string_of_list_ascii ["-"%char]).
  rewrite <- !string_of_list_ascii_app, list_ascii_of_string_of_list_ascii; simpl.
  rewrite <- (app_nil_r (list_ascii_of_string (JS.padStart0 2 (JS.Z_to_string d)))).
  rewrite ymd_prefix_app; auto.
Qed.

(** On a trimmed input split by ['/'] into three parts and not a
    [YYYY-MM-DDT...] date-time, both normalisers are the slash branch. *)
Lemma slash_input s d m y :
  JS.split "/" (JS.trim s) = [d; m; y] -> Re.ymd_T (JS.trim s) = false ->
  Part001.parseFrenchDate s = slash_branch (JS.trim s)
  /\ forall rt, Shifted.parseFrenchDate rt s = slash_branch (JS.trim s).
Proof.
  intros Hs Ht.
  assert (E1 : String.eqb s "" = false)
    by (destruct s; [discriminate|reflexivity]).
  assert (E2 : String.eqb (JS.trim s) "" = false)
    by (destruct (JS.trim s); [discriminate|reflexivity]).
  assert (E3 : Re.ymd_exact (JS.trim s) = false).
  { destruct (Re.ymd_exact (JS.trim s)) eqn:E; [|reflexivity].
    rewrite split_no_sep in Hs by (apply canonical_no_slash; exact E); discriminate. }
  unfold Part001.parseFrenchDate, Shifted.parseFrenchDate.
  rewrite E1, E2, E3, Ht; split; [reflexivity|intros; reflexivity].
Qed.
(** ** The probe *)
Section ProbeFacts.
Import Probe.

Lemma testFirebaseConnection_unfold rc :
  (rc < maxRetries)%nat ->
  testFirebaseConnection rc = attempt (testFirebaseConnection (S rc)) rc.
Proof.
  intros H; unfold testFirebaseConnection.
  replace (maxRetries - rc)%nat with (S (maxRetries - S rc)) by (unfold maxRetries in *; lia).
  reflexivity.
Qed.

(** Once [retryCount] reaches [maxRetries] the recursive call is dead. *)
Lemma testFirebaseConnection_last rc next :
  (maxRetries <= rc)%nat -> testFirebaseConnection rc = attempt next rc.
Proof.
  intros H; unfold testFirebaseConnection.
  replace (maxRetries - rc)%nat with O by lia; simpl.
  unfold attempt; f_equal; extensionality b; destruct b; simpl; [|reflexivity].
  f_equal; extensionality u; destruct u; simpl; [|reflexivity].
  f_equal; extensionality o.
  apply Nat.ltb_ge in H.
  destruct o as [|e|]; [reflexivity| |]; unfold on_error; rewrite H, andb_false_r;
    reflexivity.
Qed.

Lemma on_error_transient next rc e :
  transient_error e = true -> (rc < maxRetries)%nat ->
  on_error next rc e = PSleep (2000 * 2 ^ Z.of_nat rc) next.
Proof.
  unfold transient_error, on_error; intros H Hr.
  apply andb_prop in H as [Hc Hn].
  destruct (code_is e "permission-denied"), (code_is e "failed-precondition"),
           (code_is e "unavailable"); try discriminate.
  apply Nat.ltb_lt in Hr; rewrite Hc, Hr; reflexivity.
Qed.

Lemma on_error_transient_last next rc e :
  transient_error e = true -> (maxRetries <= rc)%nat ->
  on_error next rc e = PDone {| success := false; error := Some (errorMessage e) |}.
Proof.
  unfold transient_error, on_error; intros H Hr.
  apply andb_prop in H as [Hc Hn].
  destruct (code_is e "permission-denied"), (code_is e "failed-precondition"),
           (code_is e "unavailable"); try discriminate.
  apply Nat.ltb_ge in Hr; rewrite Hr, andb_false_r; reflexivity.
Qed.

Lemma run_attempt_transient next rc o ans :
  transient o = true -> (rc < maxRetries)%nat ->
  run (attempt next rc) (AOnline true :: AUser true :: ARace o :: ans)
  = option_map (fun '(r, tr) =>
                  (r, (probe_prefix ++ EvSleep (2000 * 2 ^ Z.of_nat rc) :: tr)%list))
               (run next ans).
Proof.
  intros Ho Hr; cbn -[on_error].
  destruct o as [|e|]; try discriminate;
    [rewrite on_error_transient by auto | rewrite on_error_transient by auto];
    simpl; destruct (run next ans) as [[r tr]|]; reflexivity.
Qed.

Lemma run_attempt_transient_last next rc o ans :
  transient o = true -> (maxRetries <= rc)%nat ->
  run (attempt next rc) (AOnline true :: AUser true :: ARace o :: ans)
  = Some ({| success := false; error := Some (errorMessage (outcome_error o)) |},
          probe_prefix).
Proof.
  intros Ho Hr; cbn -[on_error].
  destruct o as [|e|]; try discriminate;
    [rewrite on_error_transient_last by auto | rewrite on_error_transient_last by auto];
    reflexivity.
Qed.

Lemma run_on_error_inv next rc e ans r tr :
  run (on_error next rc e) ans = Some (r, tr) ->
  tr = [] \/ ((rc < maxRetries)%nat /\ exists tr',
                run next ans = Some (r, tr')
                /\ tr = EvSleep (2000 * 2 ^ Z.of_nat rc) :: tr').
Proof.
  unfold on_error.
  destruct (code_is e "permission-denied");
    [simpl; intros H; inversion H; auto|].
  destruct (code_is e "failed-precondition");
    [simpl; intros H; inversion H; auto|].
  destruct (code_is e "unavailable");
    [simpl; intros H; inversion H; auto|].
  destruct (retry_classified e && Nat.ltb rc maxRetries) eqn:E.
  - apply andb_prop in E as [_ E]; apply Nat.ltb_lt in E; simpl.
    destruct (run next ans) as [[r' tr']|] eqn:Er; simpl; intros H;
      inversion H; subst.
    right; split; [exact E|]; exists tr'; auto.
  - simpl; intros H; inversion H; auto.
Qed.

Lemma run_attempt_inv next rc ans r tr :
  run (attempt next rc) ans = Some (r, tr) ->
  sleeps tr = [] \/ ((rc < maxRetries)%nat /\ exists ans' tr',
                       run next ans' = Some (r, tr')
                       /\ sleeps tr = 2000 * 2 ^ Z.of_nat rc :: sleeps tr').
Proof.
  unfold attempt; simpl.
  destruct ans as [|[b|b|o] ans]; try discriminate.
  destruct b; simpl; [|intros H; inversion H; auto].
  destruct ans as [|[b|b|o] ans]; try discriminate.
  destruct b; simpl; [|intros H; inversion H; auto].
  destruct ans as [|[b|b|o] ans]; try discriminate.
  assert (Hinv : forall e tr1, run (on_error next rc e) ans = Some (r, tr1) ->
    sleeps (EvOnline :: EvUser :: EvGetDoc "app_config" "connection_test" :: tr1) = [] \/
    ((rc < maxRetries)%nat /\ exists ans' tr',
       run next ans' = Some (r, tr')
       /\ sleeps (EvOnline :: EvUser :: EvGetDoc "app_config" "connection_test" :: tr1)
          = 2000 * 2 ^ Z.of_nat rc :: sleeps tr')).
  { intros e tr1 He; apply run_on_error_inv in He as [->|[Hr [tr' [Hn ->]]]];
      [left; reflexivity|right; split; [exact Hr|exists ans, tr'; split; [exact Hn|reflexivity]]]. }
  destruct o as [|e|]; simpl.
  - intros H; inversion H; auto.
  - destruct (run (on_error next rc e) ans) as [[r1 tr1]|] eqn:E; simpl; intros H;
      inversion H; subst; exact (Hinv e tr1 E).
  - destruct (run (on_error next rc timeout_error) ans) as [[r1 tr1]|] eqn:E; simpl;
      intros H; inversion H; subst; exact (Hinv timeout_error tr1 E).
Qed.

(** The waits of any run from [retryCount = rc] with [fuel] retries left
    are a prefix of the doubling schedule starting at [2000 * 2^rc]. *)
Lemma go_sleeps fuel : forall rc ans r tr,
  (fuel + rc = maxRetries)%nat ->
  run (go fuel rc) ans = Some (r, tr) ->
  exists rest, (sleeps tr ++ rest)%list
               = map (fun i => 2000 * 2 ^ Z.of_nat i) (seq rc fuel).
Proof.
  induction fuel as [|fuel IH]; intros rc ans r tr Hf H; simpl in H;
    apply run_attempt_inv in H as [Hs|[Hr [ans' [tr' [Hn Hs]]]]].
  - rewrite Hs; eexists; reflexivity.
  - unfold maxRetries in *; lia.
  - rewrite Hs; eexists; reflexivity.
  - destruct (IH (S rc) ans' r tr' ltac:(lia) Hn) as [rest Hrest].
    exists rest; rewrite Hs; simpl; rewrite Hrest; reflexivity.
Qed.

Lemma code_is_unique e c c' :
  code_is e c = true -> c <> c' -> code_is e c' = false.
Proof.
  unfold code_is; destruct (code e) as [x|]; [|discriminate].
  intros H Hn; apply String.eqb_eq in H; subst.
  apply String.eqb_neq; exact Hn.
Qed.

Lemma run_attempt_terminal next rc e ans :
  run (attempt next rc) (AOnline true :: AUser true :: ARace (DocRejected e) :: ans)
  = option_map (fun '(r, tr) => (r, (probe_prefix ++ tr)%list))
               (run (on_error next rc e) ans).
Proof.
  cbn -[on_error]; destruct (run (on_error next rc e) ans) as [[r tr]|]; reflexivity.
Qed.

End ProbeFacts.
(* ================================================================== *)
(** * Claims *)

(** ** Date normaliser *)

(** C5 (as stated, refuted): the dd/MM/yyyy-only normaliser of
    [src/unnamed/part_000] does not pass the canonical ["2025-11-30"]
    through; it returns null. *)
Lemma C5_part000_rejects_canonical :
  Re.ymd_exact "2025-11-30" = true
  /\ Part000.parseFrenchDate utc_runtime "2025-11-30" = None.
Proof. split; reflexivity. Qed.

(** C5 (amended): every input in canonical YYYY-MM-DD form is returned
    unchanged by the truncating normaliser ([part_001], last function of
    [firebase.ts]) and by the UTC+1 normaliser of [firebase.ts], in every
    runtime; in particular ["2025-11-30"] gives ["2025-11-30"].  The
    [part_000] normaliser returns null on every such input. *)
Theorem C5_canonical_passthrough :
  (forall s, Re.ymd_exact s = true ->
     Part001.parseFrenchDate s = Some s
     /\ forall rt, Shifted.parseFrenchDate rt s = Some s)
  /\ (forall rt s, Re.ymd_exact s = true -> Part000.parseFrenchDate rt s = None)
  /\ Part001.parseFrenchDate "2025-11-30" = Some "2025-11-30".
Proof.
  split; [|split].
  - intros s H; split; [now apply part001_canonical|].
    intros rt; now apply shifted_canonical.
  - intros rt s H; now apply part000_canonical.
  - reflexivity.
Qed.

Lemma C5_canonical_passthrough_witness :
  Re.ymd_exact "2025-11-30" = true
  /\ Part001.parseFrenchDate "2025-11-30" = Some "2025-11-30"
  /\ Part000.parseFrenchDate utc_runtime "2025-11-30" = None.
Proof.
  split; [reflexivity|]; split.
  - exact (proj1 (proj1 C5_canonical_passthrough "2025-11-30" eq_refl)).
  - exact (proj1 (proj2 C5_canonical_passthrough) utc_runtime "2025-11-30" eq_refl).
Defined.

(** C9: on canonical input both normalisers are idempotent:
    [normalize(normalize(x)) = normalize(x)]. *)
Theorem C9_idempotent_on_canonical :
  forall s, Re.ymd_exact s = true ->
    (match Part001.parseFrenchDate s with
     | Some y => Part001.parseFrenchDate y | None => None end
     = Part001.parseFrenchDate s)
    /\ forall rt,
      (match Shifted.parseFrenchDate rt s with
       | Some y => Shifted.parseFrenchDate rt y | None => None end
       = Shifted.parseFrenchDate rt s).
Proof.
  intros s H; split.
  - rewrite part001_canonical by exact H; exact (part001_canonical s H).
  - intros rt; rewrite shifted_canonical by exact H; exact (shifted_canonical rt s H).
Qed.

Lemma C9_idempotent_on_canonical_witness :
  Re.ymd_exact "2025-11-30" = true
  /\ (match Part001.parseFrenchDate "2025-11-30" with
      | Some y => Part001.parseFrenchDate y | None => None end
      = Part001.parseFrenchDate "2025-11-30").
Proof.
  split; [reflexivity|].
  exact (proj1 (C9_idempotent_on_canonical "2025-11-30" eq_refl)).
Defined.

(** C8: empty or white-space-only input, and input whose trimmed form is
    neither canonical, nor a [YYYY-MM-DDT...] date-time, nor split by
    ['/'] into exactly three D/M/Y parts, gives null in both normalisers. *)
Theorem C8_unrecognised_is_null :
  (forall s, forallb JS.is_space (list_ascii_of_string s) = true ->
     Part001.parseFrenchDate s = None
     /\ forall rt, Shifted.parseFrenchDate rt s = None)
  /\ (forall s,
       Re.ymd_exact (JS.trim s) = false -> Re.ymd_T (JS.trim s) = false ->
       length (JS.split "/" (JS.trim s)) <> 3%nat ->
       Part001.parseFrenchDate s = None
       /\ forall rt, Shifted.parseFrenchDate rt s = None).
Proof.
  split.
  - intros s H; unfold Part001.parseFrenchDate, Shifted.parseFrenchDate.
    destruct (all_space_blank s H) as [E|[E T]]; rewrite E;
      [split; [reflexivity|intros; reflexivity]|].
    rewrite T; split; [reflexivity|intros; reflexivity].
  - intros s He Ht Hl.
    assert (Hsl : slash_branch (JS.trim s) = None).
    { unfold slash_branch.
      destruct (JS.split "/" (JS.trim s)) as [|a [|b [|c [|]]]];
        try reflexivity; simpl in Hl; congruence. }
    unfold Part001.parseFrenchDate, Shifted.parseFrenchDate.
    destruct (String.eqb s ""); [split; [reflexivity|intros; reflexivity]|].
    destruct (String.eqb (JS.trim s) ""); [split; [reflexivity|intros; reflexivity]|].
    rewrite He, Ht, Hsl; split; [reflexivity|intros; reflexivity].
Qed.

Lemma C8_unrecognised_is_null_witness :
  Part001.parseFrenchDate " 	 " = None /\ Part001.parseFrenchDate "abc" = None.
Proof.
  split.
  - exact (proj1 (proj1 C8_unrecognised_is_null " 	 " eq_refl)).
  - refine (proj1 (proj2 C8_unrecognised_is_null "abc" eq_refl eq_refl _)).
    vm_compute; discriminate.
Defined.

(** ** Worker lookup *)

(** C10: a blank search term gives null with no request: both lookups are
    finished before any [fetch]. *)
Theorem C10_blank_search_no_request :
  forall JSON_parse s,
    forallb JS.is_space (list_ascii_of_string s) = true ->
    Part001Lookup.searchWorkerInGoogleSheet JSON_parse s = LDone None
    /\ FirebaseLookup.searchWorkerInGoogleSheet JSON_parse s = LDone None
    /\ forall o, run_lookup (Part001Lookup.searchWorkerInGoogleSheet JSON_parse s) o
                 = (None, [])
              /\ run_lookup (FirebaseLookup.searchWorkerInGoogleSheet JSON_parse s) o
                 = (None, []).
Proof.
  intros P s H.
  unfold Part001Lookup.searchWorkerInGoogleSheet,
         FirebaseLookup.searchWorkerInGoogleSheet.
  rewrite (blank_search_all_space s H); repeat split.
Qed.

Lemma C10_blank_search_no_request_witness :
  Part001Lookup.searchWorkerInGoogleSheet (fun _ => None) "   " = LDone None.
Proof. exact (proj1 (C10_blank_search_no_request (fun _ => None) "   " eq_refl)). Defined.

(** C3: every failure cause (rejected fetch, non-2xx status, unreadable or
    empty body, malformed JSON, non-array body, empty array, first row not
    an array or shorter than 14 fields) ends both lookups with the same
    outcome: null after the one request, never an exception. *)
Theorem C3_failures_collapse_to_null :
  forall JSON_parse s o,
    blank_search s = false -> lookup_failure JSON_parse o ->
    run_lookup (Part001Lookup.searchWorkerInGoogleSheet JSON_parse s) o
      = (None, [lookup_url s])
    /\ run_lookup (FirebaseLookup.searchWorkerInGoogleSheet JSON_parse s) o
      = (None, [lookup_url s]).
Proof.
  intros P s o Hb Hf.
  unfold Part001Lookup.searchWorkerInGoogleSheet,
         FirebaseLookup.searchWorkerInGoogleSheet; rewrite Hb; simpl.
  rewrite (first_row_failure P o Hf); split; reflexivity.
Qed.

Lemma C3_failures_collapse_to_null_witness :
  run_lookup (Part001Lookup.searchWorkerInGoogleSheet (fun _ => Some (JArr [])) "M123")
             (Response 200 (Some "[]"))
  = (None, [lookup_url "M123"]).
Proof.
  exact (proj1 (C3_failures_collapse_to_null (fun _ => Some (JArr [])) "M123"
                  (Response 200 (Some "[]")) eq_refl
                  (LF_empty_array _ 200 "[]" eq_refl))).
Defined.

(** C1 (as stated, refuted): on the spec's example response both lookups
    return the index-13 text verbatim, ["15/06/2020"], not ["2020-06-15"]. *)
Lemma C1_entry_date_not_normalised :
  fst (run_lookup (Part001Lookup.searchWorkerInGoogleSheet
                     (fun _ => Some (JArr [JArr jane_row])) "M123")
                  (Response 200 (Some "[[...]]")))
  = Some {| Part001Lookup.matricule := "M123"; Part001Lookup.nom_complet := "Jane Doe";
            Part001Lookup.cin := "CIN99"; Part001Lookup.date_entree := "15/06/2020" |}
  /\ fst (run_lookup (FirebaseLookup.searchWorkerInGoogleSheet
                       (fun _ => Some (JArr [JArr jane_row])) "M123")
                    (Response 200 (Some "[[...]]")))
  = Some {| FirebaseLookup.matricule := "M123"; FirebaseLookup.nom_complet := "Jane Doe";
            FirebaseLookup.cin := "CIN99"; FirebaseLookup.sexe := "femme";
            FirebaseLookup.date_entree := "15/06/2020" |}
  /\ "15/06/2020" <> "2020-06-15".
Proof. split; [reflexivity|split; [reflexivity|discriminate]]. Qed.

(** C1 (amended): for a 2xx response whose body parses to an array whose
    first element is an array of at least 14 fields with index 0 ["M123"],
    index 2 ["Jane Doe"], index 3 ["CIN99"] and index 13 ["15/06/2020"],
    both lookups return, after their one request, a record with matricule
    ["M123"], full name ["Jane Doe"], national id ["CIN99"] and the raw
    entry date ["15/06/2020"]; the gender-aware one also maps index 4,
    and returns null instead when [String()] of that cell throws (an
    object with a member of its own named ["toString"]).  The Date
    Normaliser maps the raw date to ["2020-06-15"]. *)
Theorem C1_lookup_maps_fields :
  forall JSON_parse s status text row rest,
    blank_search s = false -> Http.ok status = true -> text <> "" ->
    JSON_parse text = Some (JArr (JArr row :: rest)) -> (14 <= length row)%nat ->
    nth_error row 0 = Some (JStr "M123") -> nth_error row 2 = Some (JStr "Jane Doe") ->
    nth_error row 3 = Some (JStr "CIN99") -> nth_error row 13 = Some (JStr "15/06/2020") ->
    run_lookup (Part001Lookup.searchWorkerInGoogleSheet JSON_parse s)
               (Response status (Some text))
    = (Some {| Part001Lookup.matricule := "M123"; Part001Lookup.nom_complet := "Jane Doe";
               Part001Lookup.cin := "CIN99"; Part001Lookup.date_entree := "15/06/2020" |},
       [lookup_url s])
    /\ run_lookup (FirebaseLookup.searchWorkerInGoogleSheet JSON_parse s)
                  (Response status (Some text))
    = (match field_or_empty (index row 4) with
       | Some code =>
           Some {| FirebaseLookup.matricule := "M123"; FirebaseLookup.nom_complet := "Jane Doe";
                   FirebaseLookup.cin := "CIN99";
                   FirebaseLookup.sexe := FirebaseLookup.convertGenderCode code;
                   FirebaseLookup.date_entree := "15/06/2020" |}
       | None => None
       end,
       [lookup_url s])
    /\ Part001.parseFrenchDate "15/06/2020" = Some "2020-06-15".
Proof.
  intros P s status text row rest Hb Hok Ht Hp Hl H0 H2 H3 H13.
  unfold Part001Lookup.searchWorkerInGoogleSheet,
         FirebaseLookup.searchWorkerInGoogleSheet; rewrite Hb; cbn -[first_row].
  rewrite (first_row_ok P status text row rest Hok Ht Hp Hl).
  unfold Part001Lookup.worker_of_row, FirebaseLookup.worker_of_row, index.
  rewrite H0, H2, H3, H13; simpl.
  split; [reflexivity|split; [|reflexivity]].
  destruct (field_or_empty (nth_error row 4)); reflexivity.
Qed.

Lemma C1_lookup_maps_fields_witness :
  run_lookup (Part001Lookup.searchWorkerInGoogleSheet
                (fun _ => Some (JArr [JArr jane_row])) "M123")
             (Response 200 (Some "[[...]]"))
  = (Some {| Part001Lookup.matricule := "M123"; Part001Lookup.nom_complet := "Jane Doe";
             Part001Lookup.cin := "CIN99"; Part001Lookup.date_entree := "15/06/2020" |},
     [lookup_url "M123"]).
Proof.
  refine (proj1 (C1_lookup_maps_fields (fun _ => Some (JArr [JArr jane_row])) "M123"
                   200 "[[...]]" jane_row [] eq_refl eq_refl _ eq_refl _
                   eq_refl eq_refl eq_refl eq_refl)).
  - discriminate.
  - simpl; lia.
Defined.

(** C4 (code bug): the UTC+1 normaliser ([firebase.ts] lines 438-460)
    wraps [new Date] in a [try] whose [catch] returns null, and its
    comment promises YYYY-MM-DD; but [new Date] never throws.  Every input
    whose trimmed form starts with [YYYY-MM-DDT] and that [new Date] reads
    as an invalid Date (such as month 13), or whose instant plus one hour
    leaves the time-value range, gives the text ["NaN-NaN-NaN"], not
    null. *)
Theorem C4_shifted_invalid_datetime_nan : forall rt s,
  Re.ymd_T (JS.trim s) = true ->
  (Date.parse rt (JS.trim s) = None
   \/ exists t, Date.parse rt (JS.trim s) = Some t /\ 8640000000000000 < Z.abs (t + 3600000)) ->
  Shifted.parseFrenchDate rt s = Some "NaN-NaN-NaN".
Proof.
  intros rt s H Hp.
  destruct (datetime_trim_nonempty s H) as [E1 E2].
  unfold Shifted.parseFrenchDate; rewrite E1, E2, datetime_not_canonical, H by exact H.
  destruct Hp as [Hp|[t [Hp Hr]]]; rewrite Hp; [reflexivity|].
  cbn -[Date.utc_ymd JS.padStart0 JS.Z_to_string].
  unfold Date.time_clip; apply Z.leb_gt in Hr; rewrite Hr; reflexivity.
Qed.

Lemma C4_shifted_invalid_datetime_nan_witness :
  Shifted.parseFrenchDate utc_runtime "2025-13-01T00:00:00Z" = Some "NaN-NaN-NaN".
Proof.
  apply C4_shifted_invalid_datetime_nan; [reflexivity|left; reflexivity].
Defined.

(** C6 (as stated, refuted): year 10000 passes the [year >= 1900] test and
    is emitted with five digits, which is not the YYYY-MM-DD form; and a
    D/M/Y input whose day part starts with [YYYY-MM-DDT] (parsed day 12) is
    taken by the date-time branch instead. *)
Lemma C6_five_digit_year :
  Part001.parseFrenchDate "30/11/10000" = Some "10000-11-30"
  /\ Re.ymd_exact "10000-11-30" = false
  /\ Num.parseInt10 "0012-01-01T00:00" = Some 12
  /\ Part001.parseFrenchDate "0012-01-01T00:00/11/2025" = Some "0012-01-01".
Proof. repeat split; reflexivity. Qed.

(** C6 (amended): for an input whose trimmed form splits at ['/'] into
    three parts D/M/Y and is not a [YYYY-MM-DDT...] date-time: when
    [parseInt] gives day in [1,31], month in [1,12] and year >= 1900 (and
    below 2^53), both normalisers return [year-MM-DD] with month and day
    zero-padded, which is the canonical YYYY-MM-DD form for years up to
    9999; otherwise they return null.  No calendar check is made:
    ["31/11/2025"] gives ["2025-11-31"], ["30/11/2025"] gives
    ["2025-11-30"], ["31/13/2025"] gives null. *)
Theorem C6_slash_dates :
  (forall s d m y dn mn yn,
     JS.split "/" (JS.trim s) = [d; m; y] -> Re.ymd_T (JS.trim s) = false ->
     Num.parseInt10 d = Some dn -> Num.parseInt10 m = Some mn ->
     Num.parseInt10 y = Some yn ->
     1 <= dn <= 31 -> 1 <= mn <= 12 -> 1900 <= yn < 2 ^ 53 ->
     Part001.parseFrenchDate s = Some (Date.ymd_text (yn, mn, dn))
     /\ (forall rt, Shifted.parseFrenchDate rt s = Some (Date.ymd_text (yn, mn, dn)))
     /\ (yn <= 9999 -> Re.ymd_exact (Date.ymd_text (yn, mn, dn)) = true))
  /\ (forall s d m y,
       JS.split "/" (JS.trim s) = [d; m; y] -> Re.ymd_T (JS.trim s) = false ->
       ~ (exists dn mn yn,
            Num.parseInt10 d = Some dn /\ Num.parseInt10 m = Some mn
            /\ Num.parseInt10 y = Some yn
            /\ 1 <= dn <= 31 /\ 1 <= mn <= 12 /\ 1900 <= yn) ->
       Part001.parseFrenchDate s = None
       /\ forall rt, Shifted.parseFrenchDate rt s = None)
  /\ Part001.parseFrenchDate "31/11/2025" = Some "2025-11-31"
  /\ Part001.parseFrenchDate "30/11/2025" = Some "2025-11-30"
  /\ Part001.parseFrenchDate "31/13/2025" = None.
Proof.
  split; [|split; [|repeat split; reflexivity]].
  - intros s d m y dn mn yn Hs Ht Hd Hm Hy Rd Rm Ry.
    destruct (slash_input s d m y Hs Ht) as [E1 E2].
    assert (Hb : slash_branch (JS.trim s) = Some (Date.ymd_text (yn, mn, dn))).
    { unfold slash_branch; rewrite Hs, Hd, Hm, Hy.
      replace ((1 <=? dn) && (dn <=? 31) && (1 <=? mn) && (mn <=? 12) && (1900 <=? yn))
        with true by (symmetry; repeat rewrite andb_true_iff; repeat split; apply Z.leb_le; lia).
      reflexivity. }
    split; [rewrite E1; exact Hb|split].
    + intros rt; rewrite E2; exact Hb.
    + intros Hy'; apply ymd_text_canonical; lia.
  - intros s d m y Hs Ht Hn.
    destruct (slash_input s d m y Hs Ht) as [E1 E2].
    assert (Hb : slash_branch (JS.trim s) = None).
    { unfold slash_branch; rewrite Hs.
      destruct (Num.parseInt10 d) as [dn|]; [|reflexivity].
      destruct (Num.parseInt10 m) as [mn|]; [|reflexivity].
      destruct (Num.parseInt10 y) as [yn|]; [|reflexivity].
      destruct ((1 <=? dn) && (dn <=? 31) && (1 <=? mn) && (mn <=? 12) && (1900 <=? yn))
        eqn:E; [|reflexivity].
      exfalso; apply Hn; exists dn, mn, yn.
      repeat rewrite andb_true_iff in E; destruct E as [[[[E1' E2'] E3'] E4'] E5'].
      apply Z.leb_le in E1', E2', E3', E4', E5'; repeat split; auto. }
    rewrite E1, Hb; split; [reflexivity|intros rt; rewrite E2; exact Hb].
Qed.

Lemma C6_slash_dates_witness :
  Part001.parseFrenchDate " 7/3/2024" = Some (Date.ymd_text (2024, 3, 7)).
Proof.
  exact (proj1 (proj1 C6_slash_dates " 7/3/2024" "7" "3" "2024" 7 3 2024
                  eq_refl eq_refl eq_refl eq_refl eq_refl
                  ltac:(lia) ltac:(lia) ltac:(lia))).
Defined.
(** C7: with the device online and no signed-in user, every invocation
    [testFirebaseConnection(retryCount)] reports success without reading
    [app_config/connection_test]: the trace has no [getDoc] and no wait. *)
Theorem C7_no_session_no_read : forall rc ans,
  Probe.run (Probe.testFirebaseConnection rc)
            (Probe.AOnline true :: Probe.AUser false :: ans)
  = Some ({| Probe.success := true; Probe.error := None |},
          [Probe.EvOnline; Probe.EvUser]).
Proof.
  intros rc ans; unfold Probe.testFirebaseConnection.
  destruct (Probe.maxRetries - rc)%nat; reflexivity.
Qed.

(** C2 (as stated, refuted): a transport-classified error (message
    ["Failed to fetch"]) carrying code ["unavailable"] is not retried: the
    probe returns failure at the first attempt, with no wait at all. *)
Lemma C2_unavailable_not_retried :
  Probe.retry_classified unavailable_fetch_error = true
  /\ Probe.code_is unavailable_fetch_error "permission-denied" = false
  /\ Probe.code_is unavailable_fetch_error "failed-precondition" = false
  /\ Probe.run (Probe.testFirebaseConnection 0) (four_rejections unavailable_fetch_error)
     = Some ({| Probe.success := false; Probe.error := Some Probe.msg_unavailable |},
             Probe.probe_prefix)
  /\ Probe.sleeps Probe.probe_prefix = [].
Proof. repeat split; reflexivity. Qed.

(** C2 (amended): invoked as [testFirebaseConnection()] (retryCount 0),
    (a) when every attempt is online and signed in and its check fails
    transiently (the 30 s timer, or a rejection whose message mentions
    "timeout" or "fetch" and whose code is none of permission-denied,
    failed-precondition and unavailable), the probe waits 2000, 4000 and
    8000 ms between four attempts and then reports failure with the last
    error's message; (b) on every run the waits are a prefix of
    [2000; 4000; 8000]; (c) at any attempt, a permission-denied,
    failed-precondition or unavailable rejection returns failure at once,
    with no wait, with its specific message. *)
Theorem C2_retry_schedule :
  (forall o1 o2 o3 o4,
     Probe.transient o1 = true -> Probe.transient o2 = true ->
     Probe.transient o3 = true -> Probe.transient o4 = true ->
     Probe.run (Probe.testFirebaseConnection 0)
       [Probe.AOnline true; Probe.AUser true; Probe.ARace o1;
        Probe.AOnline true; Probe.AUser true; Probe.ARace o2;
        Probe.AOnline true; Probe.AUser true; Probe.ARace o3;
        Probe.AOnline true; Probe.AUser true; Probe.ARace o4]
     = Some ({| Probe.success := false;
                Probe.error := Some (Probe.errorMessage (Probe.outcome_error o4)) |},
             (Probe.probe_prefix ++ Probe.EvSleep 2000 ::
              Probe.probe_prefix ++ Probe.EvSleep 4000 ::
              Probe.probe_prefix ++ Probe.EvSleep 8000 :: Probe.probe_prefix)%list))
  /\ (forall ans r tr,
        Probe.run (Probe.testFirebaseConnection 0) ans = Some (r, tr) ->
        exists rest, (Probe.sleeps tr ++ rest)%list = [2000; 4000; 8000])
  /\ (forall rc e ans,
        Probe.code_is e "permission-denied" = true ->
        Probe.run (Probe.testFirebaseConnection rc)
          (Probe.AOnline true :: Probe.AUser true :: Probe.ARace (Probe.DocRejected e) :: ans)
        = Some ({| Probe.success := false; Probe.error := Some Probe.msg_permission |},
                Probe.probe_prefix))
  /\ (forall rc e ans,
        Probe.code_is e "failed-precondition" = true ->
        Probe.run (Probe.testFirebaseConnection rc)
          (Probe.AOnline true :: Probe.AUser true :: Probe.ARace (Probe.DocRejected e) :: ans)
        = Some ({| Probe.success := false; Probe.error := Some Probe.msg_precondition |},
                Probe.probe_prefix))
  /\ (forall rc e ans,
        Probe.code_is e "unavailable" = true ->
        Probe.run (Probe.testFirebaseConnection rc)
          (Probe.AOnline true :: Probe.AUser true :: Probe.ARace (Probe.DocRejected e) :: ans)
        = Some ({| Probe.success := false; Probe.error := Some Probe.msg_unavailable |},
                Probe.probe_prefix)).
Proof.
  split; [|split; [|split; [|split]]].
  - intros o1 o2 o3 o4 H1 H2 H3 H4.
    rewrite testFirebaseConnection_unfold by (unfold Probe.maxRetries; lia).
    rewrite run_attempt_transient by (auto; unfold Probe.maxRetries; lia).
    rewrite testFirebaseConnection_unfold by (unfold Probe.maxRetries; lia).
    rewrite run_attempt_transient by (auto; unfold Probe.maxRetries; lia).
    rewrite testFirebaseConnection_unfold by (unfold Probe.maxRetries; lia).
    rewrite run_attempt_transient by (auto; unfold Probe.maxRetries; lia).
    rewrite (testFirebaseConnection_last 3 (Probe.PDone {| Probe.success := false; Probe.error := None |}))
      by (unfold Probe.maxRetries; lia).
    rewrite run_attempt_transient_last by (auto; unfold Probe.maxRetries; lia).
    reflexivity.
  - intros ans r tr H.
    destruct (go_sleeps 3 0 ans r tr eq_refl H) as [rest Hr].
    exists rest; exact Hr.
  - intros rc e ans He; unfold Probe.testFirebaseConnection.
    destruct (Probe.maxRetries - rc)%nat; simpl Probe.go;
      rewrite run_attempt_terminal; unfold Probe.on_error; rewrite He; reflexivity.
  - intros rc e ans He; unfold Probe.testFirebaseConnection.
    assert (Hp : Probe.code_is e "permission-denied" = false)
      by (apply (code_is_unique e "failed-precondition"); [exact He|discriminate]).
    destruct (Probe.maxRetries - rc)%nat; simpl Probe.go;
      rewrite run_attempt_terminal; unfold Probe.on_error; rewrite Hp, He; reflexivity.
  - intros rc e ans He; unfold Probe.testFirebaseConnection.
    assert (Hp : Probe.code_is e "permission-denied" = false)
      by (apply (code_is_unique e "unavailable"); [exact He|discriminate]).
    assert (Hf : Probe.code_is e "failed-precondition" = false)
      by (apply (code_is_unique e "unavailable"); [exact He|discriminate]).
    destruct (Probe.maxRetries - rc)%nat; simpl Probe.go;
      rewrite run_attempt_terminal; unfold Probe.on_error; rewrite Hp, Hf, He; reflexivity.
Qed.

Lemma C2_retry_schedule_witness :
  Probe.run (Probe.testFirebaseConnection 0)
    [Probe.AOnline true; Probe.AUser true; Probe.ARace Probe.TimerFired;
     Probe.AOnline true; Probe.AUser true; Probe.ARace Probe.TimerFired;
     Probe.AOnline true; Probe.AUser true; Probe.ARace Probe.TimerFired;
     Probe.AOnline true; Probe.AUser true; Probe.ARace Probe.TimerFired]
  = Some ({| Probe.success := false;
             Probe.error := Some "Connection timeout - server may be slow, retrying..." |},
          (Probe.probe_prefix ++ Probe.EvSleep 2000 ::
           Probe.probe_prefix ++ Probe.EvSleep 4000 ::
           Probe.probe_prefix ++ Probe.EvSleep 8000 :: Probe.probe_prefix)%list)
  /\ (exists rest, (Probe.sleeps (Probe.probe_prefix ++ Probe.EvSleep 2000 ::
                                 Probe.probe_prefix ++ Probe.EvSleep 4000 :: Probe.probe_prefix)
                   ++ rest)%list = [2000; 4000; 8000])
  /\ Probe.run (Probe.testFirebaseConnection 1)
       (four_rejections {| Probe.code := Some "permission-denied";
                          Probe.message := None; Probe.name := None |})
     = Some ({| Probe.success := false; Probe.error := Some Probe.msg_permission |},
             Probe.probe_prefix)
  /\ Probe.run (Probe.testFirebaseConnection 0)
       (four_rejections {| Probe.code := Some "failed-precondition";
                          Probe.message := None; Probe.name := None |})
     = Some ({| Probe.success := false; Probe.error := Some Probe.msg_precondition |},
             Probe.probe_prefix)
  /\ Probe.run (Probe.testFirebaseConnection 2) (four_rejections unavailable_fetch_error)
     = Some ({| Probe.success := false; Probe.error := Some Probe.msg_unavailable |},
             Probe.probe_prefix).
Proof.
  destruct C2_retry_schedule as [Ha [Hb [Hc [Hd He]]]].
  split; [apply (Ha Probe.TimerFired Probe.TimerFired Probe.TimerFired Probe.TimerFired);
          reflexivity|].
  split; [apply (Hb [Probe.AOnline true; Probe.AUser true; Probe.ARace Probe.TimerFired;
                     Probe.AOnline true; Probe.AUser true; Probe.ARace Probe.TimerFired;
                     Probe.AOnline true; Probe.AUser true;
                     Probe.ARace (Probe.DocRejected
                       {| Probe.code := Some "permission-denied";
                          Probe.message := None; Probe.name := None |})]
                    {| Probe.success := false; Probe.error := Some Probe.msg_permission |});
          vm_compute; reflexivity|].
  split; [apply Hc; reflexivity|].
  split; [apply Hd; reflexivity|].
  apply He; reflexivity.
Defined.

(** ** Sample evaluations *)
Module Samples.
Example t1 : Date.parse utc_runtime "2025-11-30T23:00:00.000Z" = Some 1764543600000. Proof. reflexivity. Qed.
Example t2 : Date.utc_ymd (1764543600000 + 3600000) = (2025, 12, 1). Proof. reflexivity. Qed.
Example t3 : option_map Date.toISOString (Date.parse utc_runtime "2020-06-15") = Some "2020-06-15T00:00:00.000Z". Proof. reflexivity. Qed.
Example t4 : Date.parse utc_runtime "2025-13-01T00:00:00Z" = None. Proof. reflexivity. Qed.
Example t5 : Num.parseInt10 " +07x" = Some 7. Proof. reflexivity. Qed.
Example t6 : Date.parse utc_runtime "1969-12-31T23:59:59.999Z" = Some (-1). Proof. reflexivity. Qed.
Example t7 : option_map Date.toISOString (Date.parse utc_runtime "2024-02-29T13:45:10+02:00") = Some "2024-02-29T11:45:10.000Z". Proof. reflexivity. Qed.
Example u1 : Part001.parseFrenchDate "2025-11-30T23:00:00.000Z" = Some "2025-11-30". Proof. reflexivity. Qed.
Example u2 : Shifted.parseFrenchDate utc_runtime "2025-11-30T23:00:00.000Z" = Some "2025-12-01". Proof. reflexivity. Qed.
Example u3 : Shifted.parseFrenchDate utc_runtime "2025-13-01T00:00:00Z" = Some "NaN-NaN-NaN". Proof. reflexivity. Qed.
Example u4 : Part001.parseFrenchDate " 30/11/2025 " = Some "2025-11-30". Proof. reflexivity. Qed.
Example u5 : Part001.parseFrenchDate "31/13/2025" = None. Proof. reflexivity. Qed.
Example u6 : Part000.parseFrenchDate utc_runtime "15/06/2020" = Some "2020-06-15". Proof. reflexivity. Qed.
Example u7 : Part000.parseFrenchDate utc_runtime "2025-11-30" = None. Proof. reflexivity. Qed.
Example u8 : Part001.parseFrenchDate "31/11/2025" = Some "2025-11-31". Proof. reflexivity. Qed.
Example p1 : option_map (fun '(r, tr) => (r, Probe.sleeps tr)) (Probe.run (Probe.testFirebaseConnection 0)
  (concat (repeat [Probe.AOnline true; Probe.AUser true; Probe.ARace Probe.TimerFired] 4)))
  = Some ({| Probe.success := false; Probe.error := Some "Connection timeout - server may be slow, retrying..." |}, [2000;4000;8000]). Proof. reflexivity. Qed.
End Samples.

(* ================================================================== *)
(** * Further properties of the code *)

(** ** The calendar of [new Date('YYYY-MM-DD')] *)

Lemma era_div era doe : 0 <= doe < 146097 -> (era * 146097 + doe) / 146097 = era.
Proof. intros H; Z.div_mod_to_equations; nia. Qed.

(** The length of the March-based year [yoe] of a 400-year era. *)
Lemma yoe_recover yoe doy :
  0 <= yoe <= 399 -> 0 <= doy ->
  doy < 365 + ((yoe + 1) / 4 - yoe / 4) - ((yoe + 1) / 100 - yoe / 100)
        + ((yoe + 1) / 400 - yoe / 400) ->
  let x := yoe * 365 + yoe / 4 - yoe / 100 + doy in
  (x - x / 1460 + x / 36524 - x / 146096) / 365 = yoe.
Proof. intros H1 H2 H3 x; subst x; Z.div_mod_to_equations; lia. Qed.

Lemma doe_bound yoe doy :
  0 <= yoe <= 399 -> 0 <= doy ->
  doy < 365 + ((yoe + 1) / 4 - yoe / 4) - ((yoe + 1) / 100 - yoe / 100)
        + ((yoe + 1) / 400 - yoe / 400) ->
  0 <= yoe * 365 + yoe / 4 - yoe / 100 + doy < 146097.
Proof. intros; Z.div_mod_to_equations; lia. Qed.

Ltac month_cases m :=
  assert (m = 1 \/ m = 2 \/ m = 3 \/ m = 4 \/ m = 5 \/ m = 6 \/ m = 7 \/ m = 8
          \/ m = 9 \/ m = 10 \/ m = 11 \/ m = 12) as Hc by lia;
  destruct Hc as [->|[->|[->|[->|[->|[->|[->|[->|[->|[->|[->| ->]]]]]]]]]]].

Ltac leap_cases y EL :=
  destruct (Calendar.leap y) eqn:EL; unfold Calendar.leap in EL;
    [rewrite ?orb_true_iff, ?andb_true_iff, ?negb_true_iff, ?Z.eqb_eq, ?Z.eqb_neq in EL
    |rewrite ?orb_false_iff, ?andb_false_iff, ?negb_false_iff, ?Z.eqb_eq, ?Z.eqb_neq in EL].

(** [civil_from_days] inverts [days_from_civil] on every real date. *)
Lemma civil_round_trip y m d :
  1 <= m <= 12 -> 1 <= d <= Calendar.days_in_month y m ->
  Date.civil_from_days (Date.days_from_civil y m d) = (y, m, d).
Proof.
  intros Hm Hd.
  set (y' := if m <=? 2 then y - 1 else y).
  set (era := y' / 400).
  set (yoe := y' - era * 400).
  set (mp := if m >? 2 then m - 3 else m + 9).
  set (doy := (153 * mp + 2) / 5 + d - 1).
  assert (Hyoe : 0 <= yoe <= 399) by (subst yoe era; Z.div_mod_to_equations; lia).
  assert (Hy' : y' = era * 400 + yoe) by (subst yoe; ring).
  assert (Hdoy : 0 <= doy /\ doy < 365 + ((yoe + 1) / 4 - yoe / 4) - ((yoe + 1) / 100 - yoe / 100)
                                  + ((yoe + 1) / 400 - yoe / 400)
                 /\ (5 * doy + 2) / 153 = mp /\ doy - (153 * mp + 2) / 5 + 1 = d).
  { assert (Emp : mp = if m >? 2 then m - 3 else m + 9) by reflexivity.
    assert (Ey : y' = if m <=? 2 then y - 1 else y) by reflexivity.
    assert (Eyoe : yoe = y' - y' / 400 * 400) by reflexivity.
    assert (Edoy : doy = (153 * mp + 2) / 5 + d - 1) by reflexivity.
    clearbody doy yoe era mp y'; subst doy yoe; clear Hyoe Hy' era.
    unfold Calendar.days_in_month in Hd.
    leap_cases y EL.
    all: month_cases m; simpl in Emp, Ey, Hd; subst mp y'.
    all: split; [Z.div_mod_to_equations; lia
                |split; [Z.div_mod_to_equations; lia|split; Z.div_mod_to_equations; lia]]. }
  destruct Hdoy as (Hd0 & Hd1 & Hmp & Hdd).
  assert (Hz : Date.days_from_civil y m d + 719468
               = era * 146097 + (yoe * 365 + yoe / 4 - yoe / 100 + doy)).
  { change (Date.days_from_civil y m d)
      with (era * 146097 + (yoe * 365 + yoe / 4 - yoe / 100 + doy) - 719468); ring. }
  unfold Date.civil_from_days; cbv zeta; rewrite Hz.
  rewrite era_div by (apply doe_bound; auto).
  replace (era * 146097 + (yoe * 365 + yoe / 4 - yoe / 100 + doy) - era * 146097)
    with (yoe * 365 + yoe / 4 - yoe / 100 + doy) by ring.
  rewrite (yoe_recover yoe doy Hyoe Hd0 Hd1).
  replace (yoe * 365 + yoe / 4 - yoe / 100 + doy - (365 * yoe + yoe / 4 - yoe / 100))
    with doy by ring.
  rewrite Hmp, Hdd.
  subst mp y'.
  destruct (m >? 2) eqn:E; rewrite Z.gtb_ltb in E; [apply Z.ltb_lt in E | apply Z.ltb_ge in E].
  - replace (m - 3 <? 10) with true by (symmetry; apply Z.ltb_lt; lia).
    replace (m - 3 + 3 <=? 2) with false by (symmetry; apply Z.leb_gt; lia).
    replace (m <=? 2) with false in Hy' by (symmetry; apply Z.leb_gt; lia).
    apply pair_equal_spec; split; [apply pair_equal_spec; split|]; lia.
  - replace (m + 9 <? 10) with false by (symmetry; apply Z.ltb_ge; lia).
    replace (m + 9 - 9 <=? 2) with true by (symmetry; apply Z.leb_le; lia).
    replace (m <=? 2) with true in Hy' by (symmetry; apply Z.leb_le; lia).
    apply pair_equal_spec; split; [apply pair_equal_spec; split|]; lia.
Qed.

Lemma days_from_civil_day y m d :
  Date.days_from_civil y m 1 + d - 1 = Date.days_from_civil y m d.
Proof. unfold Date.days_from_civil; cbv zeta; ring. Qed.

(** The first day of the next month. *)
Lemma days_from_civil_next_month y m :
  1 <= m <= 11 ->
  Date.days_from_civil y (m + 1) 1 = Date.days_from_civil y m 1 + Calendar.days_in_month y m.
Proof.
  intros Hm; unfold Date.days_from_civil, Calendar.days_in_month; cbv zeta.
  leap_cases y EL; month_cases m; simpl; Z.div_mod_to_equations; lia.
Qed.

Lemma days_in_month_range y m : 28 <= Calendar.days_in_month y m <= 31.
Proof.
  unfold Calendar.days_in_month.
  destruct (m =? 2), (Calendar.leap y), ((m =? 4) || (m =? 6) || (m =? 9) || (m =? 11)); lia.
Qed.

Lemma days_in_december y : Calendar.days_in_month y 12 = 31.
Proof. reflexivity. Qed.

(** ** Strings of digits *)

Lemma las_app a b :
  list_ascii_of_string (a ++ b) = (list_ascii_of_string a ++ list_ascii_of_string b)%list.
Proof. induction a as [|c a IH]; simpl; [reflexivity|]; rewrite IH; reflexivity. Qed.

Lemma str_app_assoc a b c : (a ++ b) ++ c = a ++ (b ++ c).
Proof. induction a as [|x a IH]; simpl; [reflexivity|]; rewrite IH; reflexivity. Qed.

Lemma take_digits_app n : forall l v r,
  Date.take_digits n l = Some (v, []) -> Date.take_digits n (l ++ r)%list = Some (v, r).
Proof.
  induction n as [|n IH]; intros l v r H; simpl in *.
  - inversion H; subst; reflexivity.
  - destruct l as [|c l]; [discriminate|]; simpl in *.
    destruct (JS.is_digit c); [|discriminate].
    destruct (Date.take_digits n l) as [[v' r']|] eqn:E; [|discriminate].
    inversion H; subst; rewrite (IH l v' r E); reflexivity.
Qed.

Lemma take_digits_all_digits n : forall l v,
  Date.take_digits n l = Some (v, []) ->
  length l = n /\ Forall (fun c => JS.is_digit c = true) l.
Proof.
  induction n as [|n IH]; intros l v H; simpl in *.
  - inversion H; subst; auto.
  - destruct l as [|c l]; [discriminate|]; simpl in *.
    destruct (JS.is_digit c) eqn:Ec; [|discriminate].
    destruct (Date.take_digits n l) as [[v' r']|] eqn:E; [|discriminate].
    inversion H; subst; destruct (IH l v' E); auto.
Qed.

Lemma zforall_spec f lo n z :
  Calendar.zforall f lo n = true -> lo <= z < lo + Z.of_nat n -> f z = true.
Proof.
  revert lo; induction n as [|n IH]; intros lo H Hz; simpl in *; [lia|].
  apply andb_prop in H as [H1 H2].
  destruct (Z.eq_dec z lo) as [->|Hne]; [exact H1|].
  apply (IH (lo + 1)); [exact H2|lia].
Qed.

Lemma pad4_check : Calendar.zforall (Calendar.reads_back 4) 0 (Z.to_nat 10000) = true.
Proof. vm_compute; reflexivity. Qed.

Lemma pad2_check : Calendar.zforall (Calendar.reads_back 2) 0 100 = true.
Proof. vm_compute; reflexivity. Qed.

Lemma reads_back_spec n z :
  Calendar.reads_back n z = true ->
  Date.take_digits n (list_ascii_of_string (Calendar.pad n z)) = Some (z, []).
Proof.
  unfold Calendar.reads_back.
  destruct (Date.take_digits n (list_ascii_of_string (Calendar.pad n z))) as [[v [|c r]]|];
    try discriminate.
  intros H; apply Z.eqb_eq in H; subst; reflexivity.
Qed.

Lemma pad4_reads y :
  0 <= y <= 9999 ->
  Date.take_digits 4 (list_ascii_of_string (Calendar.pad 4 y)) = Some (y, []).
Proof.
  intros; apply reads_back_spec, (zforall_spec _ 0 (Z.to_nat 10000));
    [exact pad4_check|rewrite Z2Nat.id; lia].
Qed.

Lemma pad2_reads z :
  0 <= z <= 99 ->
  Date.take_digits 2 (list_ascii_of_string (Calendar.pad 2 z)) = Some (z, []).
Proof. intros; apply reads_back_spec, (zforall_spec _ 0 100); [exact pad2_check|lia]. Qed.

Lemma not_in_digits x n z :
  JS.is_digit x = false ->
  Date.take_digits n (list_ascii_of_string (Calendar.pad n z)) = Some (z, []) ->
  ~ In x (list_ascii_of_string (Calendar.pad n z)).
Proof.
  intros Hx H Hin; destruct (take_digits_all_digits _ _ _ H) as [_ F].
  rewrite Forall_forall in F; specialize (F x Hin); congruence.
Qed.

Lemma split_cons_str sep p r :
  ~ In sep (list_ascii_of_string p) ->
  JS.split sep (p ++ String sep r) = p :: JS.split sep r.
Proof.
  induction p as [|c p IH]; simpl; intros Hn.
  - rewrite Ascii.eqb_refl; reflexivity.
  - destruct (Ascii.eqb c sep) eqn:E.
    + apply Ascii.eqb_eq in E; subst; tauto.
    + rewrite IH by tauto; reflexivity.
Qed.

Lemma parse_year_digit c r :
  JS.is_digit c = true -> Date.parse_year (c :: r) = Date.take_digits 4 (c :: r).
Proof.
  intros H; destruct c as [[] [] [] [] [] [] [] []];
    first [reflexivity | vm_compute in H; discriminate].
Qed.

(** ** [new Date('YYYY-MM-DD')] *)

Lemma iso_fields_ymd y m d :
  0 <= y <= 9999 -> 0 <= m <= 99 -> 0 <= d <= 99 ->
  Date.iso_fields (Calendar.ymd y m d)
  = Some {| Date.f_year := y; Date.f_month := m; Date.f_day := d;
            Date.f_hour := 0; Date.f_min := 0; Date.f_sec := 0; Date.f_ms := 0;
            Date.f_has_time := false; Date.f_offset := None |}.
Proof.
  intros Hy Hm Hd.
  pose proof (pad4_reads y Hy) as Ry.
  pose proof (pad2_reads m ltac:(lia)) as Rm.
  pose proof (pad2_reads d ltac:(lia)) as Rd.
  unfold Date.iso_fields, Calendar.ymd; rewrite !las_app.
  destruct (take_digits_all_digits _ _ _ Ry) as [_ Fy].
  destruct (list_ascii_of_string (Calendar.pad 4 y)) as [|c ly] eqn:Ly; [discriminate|].
  inversion Fy as [|? ? Hc _]; subst.
  change ((c :: ly) ++ list_ascii_of_string "-" ++ list_ascii_of_string (Calendar.pad 2 m)
            ++ list_ascii_of_string "-" ++ list_ascii_of_string (Calendar.pad 2 d))%list
    with (c :: (ly ++ list_ascii_of_string "-" ++ list_ascii_of_string (Calendar.pad 2 m)
            ++ list_ascii_of_string "-" ++ list_ascii_of_string (Calendar.pad 2 d)))%list.
  rewrite parse_year_digit by exact Hc.
  change (c :: (ly ++ list_ascii_of_string "-" ++ list_ascii_of_string (Calendar.pad 2 m)
            ++ list_ascii_of_string "-" ++ list_ascii_of_string (Calendar.pad 2 d)))%list
    with ((c :: ly) ++ ("-"%char :: list_ascii_of_string (Calendar.pad 2 m)
            ++ "-"%char :: list_ascii_of_string (Calendar.pad 2 d)))%list.
  rewrite (take_digits_app 4 _ _ _ Ry).
  cbn [Date.opt_field Ascii.eqb Bool.eqb].
  rewrite (take_digits_app 2 _ _ _ Rm).
  cbn [Date.opt_field Ascii.eqb Bool.eqb].
  rewrite Rd; reflexivity.
Qed.

Lemma days_bound y m d :
  0 <= y <= 9999 -> 1 <= m <= 12 -> 1 <= d <= 31 ->
  -800000 <= Date.days_from_civil y m 1 + d - 1 <= 3000000.
Proof.
  intros; unfold Date.days_from_civil; cbv zeta.
  destruct (m <=? 2), (m >? 2); Z.div_mod_to_equations; lia.
Qed.

(** A date-only form is read as UTC midnight, in every runtime. *)
Lemma parse_ymd rt y m d :
  0 <= y <= 9999 -> 1 <= m <= 12 -> 1 <= d <= 31 ->
  Date.parse rt (Calendar.ymd y m d)
  = Some ((Date.days_from_civil y m 1 + d - 1) * Date.msPerDay).
Proof.
  intros Hy Hm Hd; unfold Date.parse; rewrite iso_fields_ymd by lia.
  unfold Date.fields_in_bounds; cbn [Date.f_month Date.f_day Date.f_hour Date.f_min
                                     Date.f_sec Date.f_ms Date.f_offset Date.f_has_time].
  replace ((1 <=? m) && (m <=? 12) && (1 <=? d) && (d <=? 31)
           && ((0 <=? 23) || ((0 =? 24) && (0 =? 0) && (0 =? 0) && (0 =? 0)))
           && (0 <=? 59) && (0 <=? 59)) with true
    by (symmetry; rewrite !andb_true_iff, !Z.leb_le; lia).
  unfold Date.make_date, Date.time_clip; cbn [Date.f_year Date.f_month Date.f_day Date.f_hour
                                                Date.f_min Date.f_sec Date.f_ms].
  pose proof (days_bound y m d Hy Hm Hd).
  replace (Z.abs _ <=? 8640000000000000) with true
    by (symmetry; apply Z.leb_le; unfold Date.msPerDay; lia).
  f_equal; ring.
Qed.

Lemma ymd_no_T y m d :
  0 <= y <= 9999 -> 1 <= m <= 12 -> 1 <= d <= 31 ->
  ~ In "T"%char (list_ascii_of_string (Calendar.ymd y m d)).
Proof.
  intros Hy Hm Hd; unfold Calendar.ymd; rewrite !las_app; simpl.
  rewrite !in_app_iff; simpl.
  pose proof (not_in_digits "T" 4 y eq_refl (pad4_reads y Hy)) as N1.
  pose proof (not_in_digits "T" 2 m eq_refl (pad2_reads m ltac:(lia))) as N2.
  pose proof (not_in_digits "T" 2 d eq_refl (pad2_reads d ltac:(lia))) as N3.
  intros H.
  repeat match type of H with
  | _ \/ _ => destruct H as [H|H]
  | In _ (_ ++ _) => apply in_app_iff in H
  | In _ (_ :: _) => destruct H as [H|H]
  end; try (apply N1; exact H); try (apply N2; exact H); try (apply N3; exact H);
  try discriminate; try exact H.
Qed.

(** [date.toISOString().split('T')[0]] of a UTC midnight. *)
Lemma iso_date_of_days days y m d :
  Date.civil_from_days days = (y, m, d) ->
  0 <= y <= 9999 -> 1 <= m <= 12 -> 1 <= d <= 31 ->
  first_part (JS.split "T" (Date.toISOString (days * Date.msPerDay))) = Calendar.ymd y m d.
Proof.
  intros Hc Hy Hm Hd.
  unfold Date.toISOString, Date.utc_ymd.
  rewrite Z.div_mul by (unfold Date.msPerDay; lia).
  rewrite Hc; cbv beta iota zeta.
  replace ((0 <=? y) && (y <=? 9999)) with true
    by (symmetry; rewrite andb_true_iff, !Z.leb_le; lia).
  cbv iota.
  match goal with
  | |- first_part (JS.split _ (_ ++ "-" ++ _ ++ "-" ++ _ ++ "T" ++ ?R)) = _ =>
      replace (JS.padStart0 4 (JS.Z_to_string y) ++ "-" ++ JS.padStart0 2 (JS.Z_to_string m)
               ++ "-" ++ JS.padStart0 2 (JS.Z_to_string d) ++ "T" ++ R)
        with (Calendar.ymd y m d ++ String "T" R)
        by (unfold Calendar.ymd, Calendar.pad; rewrite !str_app_assoc; reflexivity)
  end.
  unfold first_part; rewrite split_cons_str by (apply ymd_no_T; assumption); reflexivity.
Qed.

Lemma split_dmy y m d :
  0 <= y <= 9999 -> 0 <= m <= 99 -> 0 <= d <= 99 ->
  JS.split "/" (Calendar.dmy y m d) = [Calendar.pad 2 d; Calendar.pad 2 m; Calendar.pad 4 y].
Proof.
  intros Hy Hm Hd; unfold Calendar.dmy.
  change ("/" ++ Calendar.pad 2 m ++ "/" ++ Calendar.pad 4 y)
    with (String "/" (Calendar.pad 2 m ++ String "/" (Calendar.pad 4 y))).
  rewrite split_cons_str, split_cons_str, split_no_sep; [reflexivity| | |].
  - exact (not_in_digits "/" 4 y eq_refl (pad4_reads y Hy)).
  - exact (not_in_digits "/" 2 m eq_refl (pad2_reads m ltac:(lia))).
  - exact (not_in_digits "/" 2 d eq_refl (pad2_reads d ltac:(lia))).
Qed.

(** [parseFrenchDate] of [part_000] on [DD/MM/YYYY]: the UTC calendar date
    of [MakeDay(Y, M - 1, D)]. *)
Lemma part000_dmy rt y m d y' m' d' :
  0 <= y <= 9999 -> 1 <= m <= 12 -> 1 <= d <= 31 ->
  Date.civil_from_days (Date.days_from_civil y m 1 + d - 1) = (y', m', d') ->
  0 <= y' <= 9999 -> 1 <= m' <= 12 -> 1 <= d' <= 31 ->
  Part000.parseFrenchDate rt (Calendar.dmy y m d) = Some (Calendar.ymd y' m' d').
Proof.
  intros Hy Hm Hd Hc Hy' Hm' Hd'.
  unfold Part000.parseFrenchDate.
  replace (String.eqb (Calendar.dmy y m d) "") with false.
  2:{ unfold Calendar.dmy.
      pose proof (pad2_reads d ltac:(lia)) as R.
      destruct (Calendar.pad 2 d); [discriminate|reflexivity]. }
  cbv zeta; rewrite split_dmy by lia.
  change (Calendar.pad 4 y ++ "-" ++ Calendar.pad 2 m ++ "-" ++ Calendar.pad 2 d)
    with (Calendar.ymd y m d).
  rewrite parse_ymd by assumption.
  rewrite (iso_date_of_days _ y' m' d'); auto.
Qed.

(** X1 (src/unnamed/part_000, [parseFrenchDate]): on a valid calendar date
    written [DD/MM/YYYY] (zero-padded, year 0000..9999), the [part_000]
    parser returns the same date as [YYYY-MM-DD], whatever the runtime's
    time zone. *)
Theorem X1_part000_valid_date rt y m d :
  0 <= y <= 9999 -> 1 <= m <= 12 -> 1 <= d <= Calendar.days_in_month y m ->
  Part000.parseFrenchDate rt (Calendar.dmy y m d) = Some (Calendar.ymd y m d).
Proof.
  intros Hy Hm Hd.
  pose proof (days_in_month_range y m).
  apply part000_dmy; try lia.
  rewrite days_from_civil_day; apply civil_round_trip; lia.
Qed.

(** X2 (src/unnamed/part_000, [parseFrenchDate]): a day beyond the end of
    its month (up to 31) is not rejected: it rolls over into the next month,
    e.g. 31/04/2024 gives 2024-05-01. *)
Theorem X2_part000_rollover rt y m d :
  0 <= y <= 9999 -> 1 <= m <= 12 -> Calendar.days_in_month y m < d <= 31 ->
  Part000.parseFrenchDate rt (Calendar.dmy y m d)
  = Some (Calendar.ymd y (m + 1) (d - Calendar.days_in_month y m)).
Proof.
  intros Hy Hm Hd.
  assert (Hm' : m <= 11)
    by (destruct (Z.eq_dec m 12); [subst; rewrite days_in_december in Hd; lia | lia]).
  pose proof (days_in_month_range y m).
  pose proof (days_in_month_range y (m + 1)).
  apply part000_dmy; try lia.
  replace (Date.days_from_civil y m 1 + d - 1)
    with (Date.days_from_civil y (m + 1) 1 + (d - Calendar.days_in_month y m) - 1)
    by (rewrite days_from_civil_next_month by lia; lia).
  rewrite days_from_civil_day; apply civil_round_trip; lia.
Qed.

Lemma X1_part000_valid_date_witness :
  Part000.parseFrenchDate utc_runtime (Calendar.dmy 2024 2 29) = Some (Calendar.ymd 2024 2 29).
Proof.
  apply (X1_part000_valid_date utc_runtime 2024 2 29); [lia | lia |].
  split; [lia | apply Z.leb_le; reflexivity].
Defined.

Lemma X2_part000_rollover_witness :
  Part000.parseFrenchDate utc_runtime (Calendar.dmy 2024 4 31)
  = Some (Calendar.ymd 2024 (4 + 1) (31 - Calendar.days_in_month 2024 4)).
Proof.
  apply (X2_part000_rollover utc_runtime 2024 4 31); [lia | lia |].
  split; [apply Z.ltb_lt; reflexivity | lia].
Defined.

(** ** [testFirebaseConnection]: what every run reports *)

Section ProbeRuns.
Import Probe.

(** One attempt either ends the run with one of its own results, or
    (below [maxRetries]) hands over to the recursive call. *)
Lemma run_attempt_result (P : conn_result -> Prop) next rc ans r tr :
  P {| success := true; error := None |} ->
  P {| success := false; error := Some "Device is offline" |} ->
  P {| success := false; error := Some msg_permission |} ->
  P {| success := false; error := Some msg_precondition |} ->
  P {| success := false; error := Some msg_unavailable |} ->
  (forall e, P {| success := false; error := Some (errorMessage e) |}) ->
  run (attempt next rc) ans = Some (r, tr) ->
  P r \/ ((rc < maxRetries)%nat /\ exists ans' tr', run next ans' = Some (r, tr')).
Proof.
  intros H1 H2 H3 H4 H5 H6.
  unfold attempt; simpl.
  destruct ans as [|[b|b|o] ans]; try discriminate.
  destruct b; simpl; [|intros H; inversion H; subst; auto].
  destruct ans as [|[b|b|o] ans]; try discriminate.
  destruct b; simpl; [|intros H; inversion H; subst; auto].
  destruct ans as [|[b|b|o] ans]; try discriminate.
  assert (Hon : forall e tr1, run (on_error next rc e) ans = Some (r, tr1) ->
            P r \/ ((rc < maxRetries)%nat /\ exists ans' tr', run next ans' = Some (r, tr'))).
  { intros e tr1; unfold on_error.
    destruct (code_is e "permission-denied"); [simpl; intros H; inversion H; subst; auto|].
    destruct (code_is e "failed-precondition"); [simpl; intros H; inversion H; subst; auto|].
    destruct (code_is e "unavailable"); [simpl; intros H; inversion H; subst; auto|].
    destruct (retry_classified e && Nat.ltb rc maxRetries) eqn:E.
    - apply andb_prop in E as [_ E]; apply Nat.ltb_lt in E; simpl.
      destruct (run next ans) as [[r' tr']|] eqn:Er; simpl; intros H; inversion H; subst.
      right; split; [exact E|]; exists ans, tr'; exact Er.
    - simpl; intros H; inversion H; subst; auto. }
  destruct o as [|e|]; simpl.
  - intros H; inversion H; subst; auto.
  - destruct (run (on_error next rc e) ans) as [[r1 tr1]|] eqn:E; simpl; intros H;
      inversion H; subst; exact (Hon e tr1 E).
  - destruct (run (on_error next rc timeout_error) ans) as [[r1 tr1]|] eqn:E; simpl;
      intros H; inversion H; subst; exact (Hon timeout_error tr1 E).
Qed.

(** Every completed run reports one of the attempt's results: the dead
    [PDone] behind the last attempt is never reached. *)
Lemma go_result (P : conn_result -> Prop) :
  P {| success := true; error := None |} ->
  P {| success := false; error := Some "Device is offline" |} ->
  P {| success := false; error := Some msg_permission |} ->
  P {| success := false; error := Some msg_precondition |} ->
  P {| success := false; error := Some msg_unavailable |} ->
  (forall e, P {| success := false; error := Some (errorMessage e) |}) ->
  forall fuel rc ans r tr,
  (maxRetries <= fuel + rc)%nat -> run (go fuel rc) ans = Some (r, tr) -> P r.
Proof.
  intros H1 H2 H3 H4 H5 H6.
  induction fuel as [|fuel IH]; intros rc ans r tr Hf H; simpl in H;
    apply (run_attempt_result P) in H as [HP|[Hr [ans' [tr' Hn]]]]; auto.
  - lia.
  - exact (IH (S rc) ans' r tr' ltac:(lia) Hn).
Qed.

Lemma testFirebaseConnection_result (P : conn_result -> Prop) :
  P {| success := true; error := None |} ->
  P {| success := false; error := Some "Device is offline" |} ->
  P {| success := false; error := Some msg_permission |} ->
  P {| success := false; error := Some msg_precondition |} ->
  P {| success := false; error := Some msg_unavailable |} ->
  (forall e, P {| success := false; error := Some (errorMessage e) |}) ->
  forall rc ans r tr, run (testFirebaseConnection rc) ans = Some (r, tr) -> P r.
Proof.
  intros H1 H2 H3 H4 H5 H6 rc ans r tr H.
  apply (go_result P H1 H2 H3 H4 H5 H6 (maxRetries - rc) rc ans r tr); [lia|exact H].
Qed.

(** The message chosen at lines 130-142 is one of four; the fourth
    branch (line 141) is unreachable, its test being a case of the
    third's. *)
Lemma errorMessage_cases e :
  (exists c, c <> "" /\ errorMessage e = "Firebase error: " ++ c)
  \/ errorMessage e = "Connection timeout - server may be slow, retrying..."
  \/ errorMessage e = "Network connectivity issue - check your internet connection"
  \/ errorMessage e = "Connection failed".
Proof.
  unfold errorMessage, code_truthy.
  destruct (code e) as [c|].
  - destruct (String.eqb c "") eqn:Ec.
    + destruct (msg_includes e "timeout"); [auto|].
      destruct (msg_includes e "fetch"), (msg_includes e "Failed to fetch"); simpl; auto;
        rewrite andb_false_r; auto.
    + left; exists c; split; [apply String.eqb_neq; exact Ec|reflexivity].
  - destruct (msg_includes e "timeout"); [auto|].
    destruct (msg_includes e "fetch"), (msg_includes e "Failed to fetch"); simpl; auto;
      rewrite andb_false_r; auto.
Qed.

Lemma run_attempt_reads next rc ans r tr :
  run (attempt next rc) ans = Some (r, tr) ->
  (reads tr <= 1)%nat \/ exists ans' tr', run next ans' = Some (r, tr') /\ reads tr = S (reads tr').
Proof.
  unfold attempt; simpl.
  destruct ans as [|[b|b|o] ans]; try discriminate.
  destruct b; simpl; [|intros H; inversion H; subst; left; unfold reads; simpl; lia].
  destruct ans as [|[b|b|o] ans]; try discriminate.
  destruct b; simpl; [|intros H; inversion H; subst; left; unfold reads; simpl; lia].
  destruct ans as [|[b|b|o] ans]; try discriminate.
  assert (Hon : forall e tr1, run (on_error next rc e) ans = Some (r, tr1) ->
            (reads (EvOnline :: EvUser :: EvGetDoc "app_config" "connection_test" :: tr1) <= 1)%nat
            \/ exists ans' tr', run next ans' = Some (r, tr')
                /\ reads (EvOnline :: EvUser :: EvGetDoc "app_config" "connection_test" :: tr1)
                   = S (reads tr')).
  { intros e tr1 He; apply run_on_error_inv in He as [->|[_ [tr' [Hn ->]]]].
    - left; reflexivity.
    - right; exists ans, tr'; split; [exact Hn|reflexivity]. }
  destruct o as [|e|]; simpl.
  - intros H; inversion H; subst; left; unfold reads; simpl; lia.
  - destruct (run (on_error next rc e) ans) as [[r1 tr1]|] eqn:E; simpl; intros H;
      inversion H; subst; exact (Hon e tr1 E).
  - destruct (run (on_error next rc timeout_error) ans) as [[r1 tr1]|] eqn:E; simpl;
      intros H; inversion H; subst; exact (Hon timeout_error tr1 E).
Qed.

Lemma go_reads fuel : forall rc ans r tr,
  run (go fuel rc) ans = Some (r, tr) -> (reads tr <= S fuel)%nat.
Proof.
  induction fuel as [|fuel IH]; intros rc ans r tr H; simpl in H;
    apply run_attempt_reads in H as [Hr|[ans' [tr' [Hn Hr]]]]; try lia.
  - simpl in Hn; inversion Hn; subst; unfold reads in *; simpl in Hr; lia.
  - specialize (IH (S rc) ans' r tr' Hn); lia.
Qed.

End ProbeRuns.

(** X3 (firebase.ts, [testFirebaseConnection], lines 68-71): when the
    device is offline, every invocation fails at once with "Device is
    offline", having only read [navigator.onLine]: no auth check, no
    Firestore read, no wait. *)
Theorem X3_offline_fails_at_once : forall rc ans,
  Probe.run (Probe.testFirebaseConnection rc) (Probe.AOnline false :: ans)
  = Some ({| Probe.success := false; Probe.error := Some "Device is offline" |},
          [Probe.EvOnline]).
Proof.
  intros rc ans; unfold Probe.testFirebaseConnection.
  destruct (Probe.maxRetries - rc)%nat; reflexivity.
Qed.

(** X4 (firebase.ts, [testFirebaseConnection]): on every completed run,
    the result reports success exactly when it carries no error message. *)
Theorem X4_success_iff_no_error : forall rc ans r tr,
  Probe.run (Probe.testFirebaseConnection rc) ans = Some (r, tr) ->
  (Probe.success r = true <-> Probe.error r = None).
Proof.
  apply (testFirebaseConnection_result (fun r => Probe.success r = true <-> Probe.error r = None));
    try (simpl; split; congruence).
Qed.

Lemma X4_success_iff_no_error_witness :
  Probe.success {| Probe.success := true; Probe.error := None |} = true
  <-> Probe.error {| Probe.success := true; Probe.error := None |} = None.
Proof.
  apply (X4_success_iff_no_error 0 [Probe.AOnline true; Probe.AUser false] _
           [Probe.EvOnline; Probe.EvUser]).
  reflexivity.
Defined.

(** X5 (firebase.ts, [testFirebaseConnection], lines 61-155): the error
    of a completed run is one of nine messages: "Device is offline", the
    three fixed messages of permission-denied, failed-precondition and
    unavailable, "Firebase error: <code>" with a non-empty code, the
    timeout message, the network-connectivity message, or "Connection
    failed".  In particular "Network error - try refreshing the page"
    (line 141) is never reported. *)
Theorem X5_reported_errors : forall rc ans r tr,
  Probe.run (Probe.testFirebaseConnection rc) ans = Some (r, tr) ->
  Probe.error r = None
  \/ Probe.error r = Some "Device is offline"
  \/ Probe.error r = Some Probe.msg_permission
  \/ Probe.error r = Some Probe.msg_precondition
  \/ Probe.error r = Some Probe.msg_unavailable
  \/ (exists c, c <> "" /\ Probe.error r = Some ("Firebase error: " ++ c))
  \/ Probe.error r = Some "Connection timeout - server may be slow, retrying..."
  \/ Probe.error r = Some "Network connectivity issue - check your internet connection"
  \/ Probe.error r = Some "Connection failed".
Proof.
  apply testFirebaseConnection_result; simpl; auto 10.
  intros e; destruct (errorMessage_cases e) as [[c [Hc E] ] | [E | [E | E] ] ]; rewrite E;
    right; right; right; right; right; [left; exists c; auto|auto 10|auto 10|auto 10].
Qed.

Lemma X5_reported_errors_witness :
  let r := {| Probe.success := false;
              Probe.error := Some "Network connectivity issue - check your internet connection" |} in
  Probe.error r = None
  \/ Probe.error r = Some "Device is offline"
  \/ Probe.error r = Some Probe.msg_permission
  \/ Probe.error r = Some Probe.msg_precondition
  \/ Probe.error r = Some Probe.msg_unavailable
  \/ (exists c, c <> "" /\ Probe.error r = Some ("Firebase error: " ++ c))
  \/ Probe.error r = Some "Connection timeout - server may be slow, retrying..."
  \/ Probe.error r = Some "Network connectivity issue - check your internet connection"
  \/ Probe.error r = Some "Connection failed".
Proof.
  apply (X5_reported_errors 3
           [Probe.AOnline true; Probe.AUser true;
            Probe.ARace (Probe.DocRejected {| Probe.code := None;
                                              Probe.message := Some "Failed to fetch";
                                              Probe.name := Some "TypeError" |})]
           _ [Probe.EvOnline; Probe.EvUser; Probe.EvGetDoc "app_config" "connection_test"]).
  reflexivity.
Defined.

(** X6 (firebase.ts, [testFirebaseConnection]): a run started at
    [retryCount] reads [app_config/connection_test] at most
    [maxRetries - retryCount + 1] times; [testFirebaseConnection()]
    reads it at most 4 times. *)
Theorem X6_bounded_reads : forall rc ans r tr,
  Probe.run (Probe.testFirebaseConnection rc) ans = Some (r, tr) ->
  (Probe.reads tr <= S (Probe.maxRetries - rc))%nat.
Proof.
  intros rc ans r tr H; exact (go_reads _ rc ans r tr H).
Qed.

Lemma X6_bounded_reads_witness :
  (Probe.reads (Probe.probe_prefix ++ Probe.EvSleep 2000 :: Probe.probe_prefix
                ++ Probe.EvSleep 4000 :: Probe.probe_prefix ++ Probe.EvSleep 8000
                :: Probe.probe_prefix) <= S (Probe.maxRetries - 0))%nat.
Proof.
  apply (X6_bounded_reads 0
           [Probe.AOnline true; Probe.AUser true; Probe.ARace Probe.TimerFired;
            Probe.AOnline true; Probe.AUser true; Probe.ARace Probe.TimerFired;
            Probe.AOnline true; Probe.AUser true; Probe.ARace Probe.TimerFired;
            Probe.AOnline true; Probe.AUser true; Probe.ARace Probe.TimerFired]
           {| Probe.success := false;
              Probe.error := Some "Connection timeout - server may be slow, retrying..." |}).
  reflexivity.
Defined.

(** ** [String.prototype.trim] is idempotent *)

Lemma ts_shape s :
  (exists k, list_ascii_of_string s = (k ++ list_ascii_of_string (JS.trim_start s))%list
             /\ forallb JS.is_space k = true)
  /\ (JS.trim_start s = "" \/ exists c r, JS.trim_start s = String c r /\ JS.is_space c = false).
Proof.
  induction s as [|c s [[k [Hk Hs]] IH2]]; simpl.
  - split; [exists []; auto | left; reflexivity].
  - destruct (JS.is_space c) eqn:Ec.
    + split; [exists (c :: k); split; [simpl; rewrite <- Hk; reflexivity
                                     | simpl; rewrite Ec, Hs; reflexivity] | exact IH2].
    + split; [exists []; split; reflexivity | right; exists c, s; auto].
Qed.

Lemma las_rev_str s :
  list_ascii_of_string (JS.rev_str s) = rev (list_ascii_of_string s).
Proof. unfold JS.rev_str; apply list_ascii_of_string_of_list_ascii. Qed.

Lemma trim_shape s :
  JS.trim s = ""
  \/ (exists a, list_ascii_of_string (JS.trim s) = [a] /\ JS.is_space a = false)
  \/ (exists a m b, list_ascii_of_string (JS.trim s) = (a :: m ++ [b])%list
                    /\ JS.is_space a = false /\ JS.is_space b = false).
Proof.
  unfold JS.trim.
  destruct (ts_shape s) as [_ [Hu|[c [r [Hu Hc]]]]]; rewrite Hu; [left; reflexivity|].
  assert (Hw : list_ascii_of_string (JS.rev_str (String c r))
               = (rev (list_ascii_of_string r) ++ [c])%list)
    by (rewrite las_rev_str; reflexivity).
  destruct (ts_shape (JS.rev_str (String c r))) as [[k [Hk Hks]] [Hv|[a [r' [Hv Ha]]]]].
  - exfalso; rewrite Hv in Hk; simpl in Hk; rewrite app_nil_r, Hw in Hk; subst k.
    rewrite forallb_app in Hks; apply andb_prop in Hks as [_ Hks].
    simpl in Hks; rewrite Hc in Hks; discriminate.
  - rewrite Hv; rewrite Hv in Hk; rewrite Hw in Hk; rewrite las_rev_str; simpl in Hk |- *.
    destruct (list_ascii_of_string r') as [|x l] eqn:Er.
    + apply app_inj_tail in Hk as [_ E]; subst.
      right; left; eexists; split; [reflexivity|assumption].
    + destruct (exists_last (l := x :: l) ltac:(discriminate)) as [m [b Hmb]].
      rewrite Hmb in Hk |- *.
      replace (k ++ a :: m ++ [b])%list with ((k ++ a :: m) ++ [b])%list in Hk
        by (rewrite <- app_assoc; reflexivity).
      apply app_inj_tail in Hk as [_ E]; subst.
      right; right; do 3 eexists; split;
        [rewrite rev_app_distr; reflexivity | split; assumption].
Qed.

Lemma trim_idem s : JS.trim (JS.trim s) = JS.trim s.
Proof.
  destruct (trim_shape s) as [H|[[a [H Ha]]|[a [m [b [H [Ha Hb]]]]]]].
  - rewrite H; reflexivity.
  - rewrite <- (string_of_list_ascii_of_string (JS.trim s)), H; simpl.
    unfold JS.trim, JS.rev_str; simpl; rewrite Ha; simpl; rewrite Ha; reflexivity.
  - exact (trim_id (JS.trim s) a m b H Ha Hb).
Qed.

Lemma blank_search_trim s : blank_search (JS.trim s) = blank_search s.
Proof.
  unfold blank_search; rewrite trim_idem.
  destruct (String.eqb s "") eqn:E.
  - apply String.eqb_eq in E; subst; reflexivity.
  - destruct (String.eqb (JS.trim s) "") eqn:E2; [|reflexivity].
    apply String.eqb_eq in E2; rewrite E2; reflexivity.
Qed.

(** ** [encodeURIComponent] *)

Lemma str_app_nil s : (s ++ "")%string = s.
Proof. induction s as [|c s IH]; simpl; [reflexivity|rewrite IH; reflexivity]. Qed.

Lemma encode_cons c r :
  encodeURIComponent (String c r)
  = (encodeURIComponent (String c "") ++ encodeURIComponent r)%string.
Proof. cbn [encodeURIComponent]; rewrite str_app_nil; reflexivity. Qed.

Lemma encode_char_safe c :
  forallb url_safe (list_ascii_of_string (encodeURIComponent (String c ""))) = true.
Proof. destruct c as [[] [] [] [] [] [] [] []]; vm_compute; reflexivity. Qed.

Lemma decode_encode_char c r :
  decode1 (encodeURIComponent (String c "") ++ r) = Some (c, r).
Proof. destruct c as [[] [] [] [] [] [] [] []]; vm_compute; reflexivity. Qed.

Lemma encode_injective : forall s1 s2,
  encodeURIComponent s1 = encodeURIComponent s2 -> s1 = s2.
Proof.
  induction s1 as [|c1 r1 IH]; intros [|c2 r2] H.
  - reflexivity.
  - rewrite (encode_cons c2 r2) in H; apply (f_equal decode1) in H.
    rewrite decode_encode_char in H; discriminate.
  - rewrite (encode_cons c1 r1) in H; apply (f_equal decode1) in H.
    rewrite decode_encode_char in H; discriminate.
  - rewrite (encode_cons c1 r1), (encode_cons c2 r2) in H; apply (f_equal decode1) in H.
    rewrite !decode_encode_char in H; injection H as -> H.
    rewrite (IH r2 H); reflexivity.
Qed.

Lemma str_app_cancel_l p a b : (p ++ a)%string = (p ++ b)%string -> a = b.
Proof. induction p as [|c p IH]; simpl; [auto|intros H; injection H; auto]. Qed.

(** ** [toUpperCase] and [trim] commute *)

Lemma is_space_upper c : JS.is_space (FirebaseLookup.upper_char c) = JS.is_space c.
Proof. destruct c as [[] [] [] [] [] [] [] []]; vm_compute; reflexivity. Qed.

Lemma upper_of_space c : JS.is_space c = true -> FirebaseLookup.upper_char c = c.
Proof.
  intros H; destruct c as [[] [] [] [] [] [] [] []]; vm_compute in H |- *;
    first [reflexivity | discriminate H].
Qed.

Lemma trim_start_upper s :
  JS.trim_start (FirebaseLookup.toUpperCase s) = FirebaseLookup.toUpperCase (JS.trim_start s).
Proof.
  induction s as [|c s IH]; simpl; [reflexivity|].
  rewrite is_space_upper; destruct (JS.is_space c); [exact IH|reflexivity].
Qed.

Lemma las_upper s :
  list_ascii_of_string (FirebaseLookup.toUpperCase s)
  = map FirebaseLookup.upper_char (list_ascii_of_string s).
Proof. induction s as [|c s IH]; simpl; [reflexivity|rewrite IH; reflexivity]. Qed.

Lemma upper_of_list l :
  FirebaseLookup.toUpperCase (string_of_list_ascii l)
  = string_of_list_ascii (map FirebaseLookup.upper_char l).
Proof. induction l as [|c l IH]; simpl; [reflexivity|rewrite IH; reflexivity]. Qed.

Lemma rev_str_upper s :
  JS.rev_str (FirebaseLookup.toUpperCase s) = FirebaseLookup.toUpperCase (JS.rev_str s).
Proof.
  unfold JS.rev_str; rewrite las_upper, upper_of_list, map_rev; reflexivity.
Qed.

Lemma trim_upper s :
  JS.trim (FirebaseLookup.toUpperCase s) = FirebaseLookup.toUpperCase (JS.trim s).
Proof.
  unfold JS.trim; rewrite trim_start_upper, rev_str_upper, trim_start_upper, rev_str_upper;
    reflexivity.
Qed.

Lemma upper_eqb x (C l : ascii) :
  (forall c, Ascii.eqb (FirebaseLookup.upper_char c) C = Ascii.eqb c C || Ascii.eqb c l) ->
  String.eqb (FirebaseLookup.toUpperCase x) (String C "")
  = String.eqb x (String C "") || String.eqb x (String l "").
Proof.
  intros Hc; destruct x as [|c [|c' r]]; simpl.
  - reflexivity.
  - rewrite Hc; destruct (Ascii.eqb c C), (Ascii.eqb c l); reflexivity.
  - destruct (Ascii.eqb (FirebaseLookup.upper_char c) C), (Ascii.eqb c C), (Ascii.eqb c l);
      reflexivity.
Qed.

Lemma upper_H c :
  Ascii.eqb (FirebaseLookup.upper_char c) "H" = Ascii.eqb c "H" || Ascii.eqb c "h".
Proof. destruct c as [[] [] [] [] [] [] [] []]; vm_compute; reflexivity. Qed.

Lemma upper_M c :
  Ascii.eqb (FirebaseLookup.upper_char c) "M" = Ascii.eqb c "M" || Ascii.eqb c "m".
Proof. destruct c as [[] [] [] [] [] [] [] []]; vm_compute; reflexivity. Qed.

Lemma first_row_json_agrees JSON_parse o :
  JSON_parse "" = None ->
  Part000Lookup.first_row_json JSON_parse o = first_row JSON_parse o.
Proof.
  intros HJ; unfold Part000Lookup.first_row_json, first_row.
  destruct o as [|status [text|]]; [reflexivity| |reflexivity].
  destruct (negb (Http.ok status)); [reflexivity|].
  destruct (String.eqb text "") eqn:E; [|reflexivity].
  apply String.eqb_eq in E; subst; rewrite HJ; reflexivity.
Qed.

(** X7 (the three [searchWorkerInGoogleSheet], the [?search=] parameter):
    every character [encodeURIComponent] writes is unreserved or the
    ['%'] of an escape, so a search term never adds a query separator
    (['&'], ['='], ['#'], ['+'] or a space) to the request URL. *)
Theorem X7_search_parameter_safe : forall s,
  forallb url_safe (list_ascii_of_string (encodeURIComponent s)) = true.
Proof.
  induction s as [|c r IH]; [reflexivity|].
  rewrite (encode_cons c r), las_app, forallb_app, encode_char_safe, IH; reflexivity.
Qed.

(** X8 (the [part_001] and gender-aware [searchWorkerInGoogleSheet]):
    two search values give the same request URL exactly when their
    trimmed texts are equal. *)
Theorem X8_request_url_injective : forall s1 s2,
  lookup_url s1 = lookup_url s2 <-> JS.trim s1 = JS.trim s2.
Proof.
  intros s1 s2; unfold lookup_url; split.
  - intros H; apply str_app_cancel_l, str_app_cancel_l in H.
    exact (encode_injective _ _ H).
  - intros ->; reflexivity.
Qed.

Lemma X8_request_url_injective_witness :
  lookup_url " M123 " = lookup_url "M123".
Proof. apply (proj2 (X8_request_url_injective " M123 " "M123")); reflexivity. Defined.

(** X9 (the three [searchWorkerInGoogleSheet]): a lookup depends on its
    search value only through the trimmed text: looking up [s] and
    looking up [s.trim()] are the same interaction. *)
Theorem X9_lookups_use_trimmed_search : forall JSON_parse s,
  Part001Lookup.searchWorkerInGoogleSheet JSON_parse (JS.trim s)
  = Part001Lookup.searchWorkerInGoogleSheet JSON_parse s
  /\ FirebaseLookup.searchWorkerInGoogleSheet JSON_parse (JS.trim s)
     = FirebaseLookup.searchWorkerInGoogleSheet JSON_parse s
  /\ Part000Lookup.searchWorkerInGoogleSheet JSON_parse (JS.trim s)
     = Part000Lookup.searchWorkerInGoogleSheet JSON_parse s.
Proof.
  intros JSON_parse s.
  unfold Part001Lookup.searchWorkerInGoogleSheet, FirebaseLookup.searchWorkerInGoogleSheet,
    Part000Lookup.searchWorkerInGoogleSheet.
  rewrite blank_search_trim, trim_idem; auto.
Qed.

(** X10 (the [parseFrenchDate] of [part_001] and the time-shifting one
    of [firebase.ts]): the result depends on the input only through its
    trimmed text. *)
Theorem X10_dates_use_trimmed_text : forall s,
  Part001.parseFrenchDate (JS.trim s) = Part001.parseFrenchDate s
  /\ forall rt, Shifted.parseFrenchDate rt (JS.trim s) = Shifted.parseFrenchDate rt s.
Proof.
  intros s.
  destruct (String.eqb s "") eqn:E.
  { apply String.eqb_eq in E; subst; split; reflexivity. }
  unfold Part001.parseFrenchDate, Shifted.parseFrenchDate; cbv zeta.
  rewrite trim_idem, E.
  destruct (String.eqb (JS.trim s) "") eqn:E2; split; reflexivity.
Qed.

Lemma part001_worker_identified row w :
  Part001Lookup.worker_of_row row = Some w ->
  Part001Lookup.matricule w <> "" \/ Part001Lookup.cin w <> "".
Proof.
  unfold Part001Lookup.worker_of_row.
  destruct (field_or_empty (index row 0)), (field_or_empty (index row 2)),
           (field_or_empty (index row 3)), (field_or_empty (index row 13));
    try (intros H; discriminate H).
  cbv zeta; simpl.
  destruct (_ && _) eqn:E; intros H; [discriminate H|]; injection H as <-; simpl.
  apply andb_false_iff in E as [E|E]; [left|right]; apply String.eqb_neq; exact E.
Qed.

Lemma firebase_worker_identified row w :
  FirebaseLookup.worker_of_row row = Some w ->
  FirebaseLookup.matricule w <> "" \/ FirebaseLookup.cin w <> "".
Proof.
  unfold FirebaseLookup.worker_of_row.
  destruct (field_or_empty (index row 0)), (field_or_empty (index row 2)),
           (field_or_empty (index row 3)), (field_or_empty (index row 4)),
           (field_or_empty (index row 13));
    try (intros H; discriminate H).
  cbv zeta; simpl.
  destruct (_ && _) eqn:E; intros H; [discriminate H|]; injection H as <-; simpl.
  apply andb_false_iff in E as [E|E]; [left|right]; apply String.eqb_neq; exact E.
Qed.

(** X11 (the three [searchWorkerInGoogleSheet]): a worker is returned
    only with a non-empty [matricule] or a non-empty [cin]. *)
Theorem X11_found_worker_identified :
  (forall JSON_parse s o w,
     fst (run_lookup (Part001Lookup.searchWorkerInGoogleSheet JSON_parse s) o) = Some w ->
     Part001Lookup.matricule w <> "" \/ Part001Lookup.cin w <> "")
  /\ (forall JSON_parse s o w,
        fst (run_lookup (FirebaseLookup.searchWorkerInGoogleSheet JSON_parse s) o) = Some w ->
        FirebaseLookup.matricule w <> "" \/ FirebaseLookup.cin w <> "")
  /\ (forall JSON_parse s o w,
        fst (run_lookup (Part000Lookup.searchWorkerInGoogleSheet JSON_parse s) o) = Some w ->
        Part001Lookup.matricule w <> "" \/ Part001Lookup.cin w <> "").
Proof.
  split; [|split]; intros JSON_parse s o w.
  - unfold Part001Lookup.searchWorkerInGoogleSheet.
    destruct (blank_search s); [intros H; discriminate H|].
    cbn [run_lookup fst].
    destruct (first_row JSON_parse o) as [row|]; [|intros H; discriminate H].
    apply part001_worker_identified.
  - unfold FirebaseLookup.searchWorkerInGoogleSheet.
    destruct (blank_search s); [intros H; discriminate H|].
    cbn [run_lookup fst].
    destruct (first_row JSON_parse o) as [row|]; [|intros H; discriminate H].
    apply firebase_worker_identified.
  - unfold Part000Lookup.searchWorkerInGoogleSheet.
    destruct (blank_search s); [intros H; discriminate H|].
    cbn [run_lookup fst].
    destruct (Part000Lookup.first_row_json JSON_parse o) as [row|]; [|intros H; discriminate H].
    apply part001_worker_identified.
Qed.

Lemma X11_found_worker_identified_witness :
  Part001Lookup.matricule
    {| Part001Lookup.matricule := "M123"; Part001Lookup.nom_complet := "Jane Doe";
       Part001Lookup.cin := "CIN99"; Part001Lookup.date_entree := "15/06/2020" |} <> ""
  \/ Part001Lookup.cin
       {| Part001Lookup.matricule := "M123"; Part001Lookup.nom_complet := "Jane Doe";
          Part001Lookup.cin := "CIN99"; Part001Lookup.date_entree := "15/06/2020" |} <> "".
Proof.
  apply (proj1 X11_found_worker_identified jane_table "M123" (Response 200 (Some "[[...]]"))).
  reflexivity.
Defined.

Lemma firebase_part001_rows row :
  (forall w, FirebaseLookup.worker_of_row row = Some w ->
             Part001Lookup.worker_of_row row = Some (drop_sexe w))
  /\ (field_or_empty (index row 4) <> None ->
      option_map drop_sexe (FirebaseLookup.worker_of_row row) = Part001Lookup.worker_of_row row)
  /\ (field_or_empty (index row 4) = None -> FirebaseLookup.worker_of_row row = None).
Proof.
  unfold FirebaseLookup.worker_of_row, Part001Lookup.worker_of_row.
  destruct (field_or_empty (index row 0)), (field_or_empty (index row 2)),
           (field_or_empty (index row 3)), (field_or_empty (index row 4)),
           (field_or_empty (index row 13)); cbv zeta; simpl;
    repeat split; intros; try congruence;
    repeat match goal with |- context [if ?c then _ else _] => destruct c end;
    simpl in *; try congruence.
  - injection H as <-; reflexivity.
  - reflexivity.
Qed.

(** X12 (the gender-aware [searchWorkerInGoogleSheet] of [firebase.ts]
    against the one of [part_001]): it fetches the same URL; every worker
    it returns is, its [sexe] field set aside, the one [part_001] returns;
    when [String()] of the first row's index 4 does not throw, the two
    return the same worker, and when it throws the gender-aware lookup
    returns null. *)
Theorem X12_gender_lookup_extends_part001 : forall JSON_parse s o,
  snd (run_lookup (FirebaseLookup.searchWorkerInGoogleSheet JSON_parse s) o)
  = snd (run_lookup (Part001Lookup.searchWorkerInGoogleSheet JSON_parse s) o)
  /\ (forall w,
        fst (run_lookup (FirebaseLookup.searchWorkerInGoogleSheet JSON_parse s) o) = Some w ->
        fst (run_lookup (Part001Lookup.searchWorkerInGoogleSheet JSON_parse s) o)
        = Some (drop_sexe w))
  /\ ((forall row, first_row JSON_parse o = Some row -> field_or_empty (index row 4) <> None) ->
      option_map drop_sexe
        (fst (run_lookup (FirebaseLookup.searchWorkerInGoogleSheet JSON_parse s) o))
      = fst (run_lookup (Part001Lookup.searchWorkerInGoogleSheet JSON_parse s) o))
  /\ (forall row, first_row JSON_parse o = Some row -> field_or_empty (index row 4) = None ->
      fst (run_lookup (FirebaseLookup.searchWorkerInGoogleSheet JSON_parse s) o) = None).
Proof.
  intros JSON_parse s o.
  unfold FirebaseLookup.searchWorkerInGoogleSheet, Part001Lookup.searchWorkerInGoogleSheet.
  destruct (blank_search s).
  - cbn [run_lookup fst snd]; split; [reflexivity|split; [|split]].
    + intros w H; discriminate H.
    + intros _; reflexivity.
    + intros row _ _; reflexivity.
  - cbn [run_lookup fst snd]; split; [reflexivity|].
    destruct (first_row JSON_parse o) as [r|] eqn:FR.
    + destruct (firebase_part001_rows r) as [A [B C]].
      split; [exact A|split].
      * intros H; apply B, H; reflexivity.
      * intros row E; injection E as <-; exact C.
    + split; [intros w H; discriminate H|split; [intros _; reflexivity|]].
      intros row E; discriminate E.
Qed.

Lemma X12_gender_lookup_extends_part001_witness :
  fst (run_lookup (FirebaseLookup.searchWorkerInGoogleSheet
                     (fun _ => Some (JArr [JArr (firstn 4 jane_row
                                                 ++ JObj [("toString", JNum "0")]
                                                 :: skipn 5 jane_row)%list]))
                     "M123")
                  (Response 200 (Some "[[...]]")))
  = None.
Proof.
  apply (proj2 (proj2 (proj2 (X12_gender_lookup_extends_part001
           (fun _ => Some (JArr [JArr (firstn 4 jane_row
                                       ++ JObj [("toString", JNum "0")] :: skipn 5 jane_row)%list]))
           "M123" (Response 200 (Some "[[...]]")))))
           (firstn 4 jane_row ++ JObj [("toString", JNum "0")] :: skipn 5 jane_row)%list);
    reflexivity.
Defined.

(** X13 (the [searchWorkerInGoogleSheet] of [part_000] against the one of
    [part_001]): reading the body with [response.json()] instead of
    [text()] plus an empty-body test changes no result, as long as
    parsing the empty text fails (as [JSON.parse("")] does). *)
Theorem X13_json_body_same_result : forall JSON_parse s o,
  JSON_parse "" = None ->
  fst (run_lookup (Part000Lookup.searchWorkerInGoogleSheet JSON_parse s) o)
  = fst (run_lookup (Part001Lookup.searchWorkerInGoogleSheet JSON_parse s) o).
Proof.
  intros JSON_parse s o HJ.
  unfold Part000Lookup.searchWorkerInGoogleSheet, Part001Lookup.searchWorkerInGoogleSheet.
  destruct (blank_search s); [reflexivity|].
  cbn [run_lookup fst]; rewrite first_row_json_agrees by exact HJ; reflexivity.
Qed.

Lemma X13_json_body_same_result_witness :
  fst (run_lookup (Part000Lookup.searchWorkerInGoogleSheet jane_table "M123")
                  (Response 200 (Some "")))
  = fst (run_lookup (Part001Lookup.searchWorkerInGoogleSheet jane_table "M123")
                    (Response 200 (Some ""))).
Proof. apply X13_json_body_same_result; reflexivity. Defined.

(** X14 ([convertGenderCode], firebase.ts lines 309-314): the code maps to
    "homme" exactly when its trimmed text is "H" or "h", to "femme"
    exactly when it is "M" or "m", and to "" otherwise. *)
Theorem X14_gender_code : forall code,
  FirebaseLookup.convertGenderCode code
  = if String.eqb (JS.trim code) "H" || String.eqb (JS.trim code) "h" then "homme"
    else if String.eqb (JS.trim code) "M" || String.eqb (JS.trim code) "m" then "femme"
    else "".
Proof.
  intros code; unfold FirebaseLookup.convertGenderCode; cbv zeta.
  rewrite trim_upper, (upper_eqb _ "H" "h" upper_H), (upper_eqb _ "M" "m" upper_M).
  reflexivity.
Qed.

(** ** [URLSearchParams.set] and [get] *)

Section SearchParams.
Import Recovery.

Lemma named_self k v : named k (k, v) = true.
Proof. apply String.eqb_refl. Qed.

Lemma named_other a b v : a <> b -> named a (b, v) = false.
Proof.
  intros H; unfold named; simpl; apply String.eqb_neq; intros E; apply H; symmetry; exact E.
Qed.

Lemma named_excl a b p : a <> b -> named b p = true -> named a p = false.
Proof.
  unfold named; intros H Hb; apply String.eqb_eq in Hb; rewrite Hb.
  apply String.eqb_neq; congruence.
Qed.

Lemma find_app_absent f (l m : params) :
  existsb f l = false -> find f (l ++ m) = find f m.
Proof.
  induction l as [|p l IH]; simpl; [reflexivity|].
  destruct (f p); [discriminate|exact IH].
Qed.

Lemma filter_absent f (l : params) : existsb f l = false -> filter f l = [].
Proof.
  induction l as [|p l IH]; simpl; [reflexivity|].
  destruct (f p); [discriminate|exact IH].
Qed.

Lemma filter_comm f g (l : params) : filter f (filter g l) = filter g (filter f l).
Proof.
  induction l as [|p l IH]; simpl; [reflexivity|].
  destruct (g p) eqn:G, (f p) eqn:F; simpl; rewrite ?G, ?F, IH; reflexivity.
Qed.

Lemma filter_idem f (l : params) : filter f (filter f l) = filter f l.
Proof.
  induction l as [|p l IH]; simpl; [reflexivity|].
  destruct (f p) eqn:F; simpl; rewrite ?F, IH; reflexivity.
Qed.

Lemma find_not_named_other a b (l : params) :
  a <> b -> find (named a) (filter (fun q => negb (named b q)) l) = find (named a) l.
Proof.
  intros H; induction l as [|p l IH]; simpl; [reflexivity|].
  destruct (named b p) eqn:B; simpl.
  - rewrite (named_excl a b p H B); exact IH.
  - destruct (named a p); [reflexivity|exact IH].
Qed.

Lemma existsb_not_named_other a b (l : params) :
  a <> b -> existsb (named a) (filter (fun q => negb (named b q)) l) = existsb (named a) l.
Proof.
  intros H; induction l as [|p l IH]; simpl; [reflexivity|].
  destruct (named b p) eqn:B; simpl.
  - rewrite (named_excl a b p H B); exact IH.
  - rewrite IH; reflexivity.
Qed.

Lemma filter_named_not_named k (l : params) : filter (named k) (filter (fun q => negb (named k q)) l) = [].
Proof.
  induction l as [|p l IH]; simpl; [reflexivity|].
  destruct (named k p) eqn:K; simpl; [exact IH|rewrite K; exact IH].
Qed.

Lemma filter_named_other a b (l : params) :
  a <> b -> filter (named a) (filter (fun q => negb (named b q)) l) = filter (named a) l.
Proof.
  intros H; induction l as [|p l IH]; simpl; [reflexivity|].
  destruct (named b p) eqn:B; simpl.
  - rewrite (named_excl a b p H B); exact IH.
  - destruct (named a p); rewrite IH; reflexivity.
Qed.

Lemma find_set_first_same k v (l : params) :
  existsb (named k) l = true -> find (named k) (set_first k v l) = Some (k, v).
Proof.
  induction l as [|p l IH]; simpl; [discriminate|].
  destruct (named k p) eqn:K; simpl.
  - rewrite named_self; reflexivity.
  - rewrite K; exact IH.
Qed.

Lemma find_set_first_other k k' v (l : params) :
  k' <> k -> find (named k') (set_first k v l) = find (named k') l.
Proof.
  intros H; induction l as [|p l IH]; simpl; [reflexivity|].
  destruct (named k p) eqn:K; simpl.
  - rewrite (named_other k' k v H), (named_excl k' k p H K).
    exact (find_not_named_other k' k l H).
  - destruct (named k' p); [reflexivity|exact IH].
Qed.

Lemma get_set_same l k v : searchParams_get (searchParams_set l k v) k = Some v.
Proof.
  unfold searchParams_get, searchParams_set.
  destruct (existsb (named k) l) eqn:E.
  - rewrite find_set_first_same by exact E; reflexivity.
  - rewrite find_app_absent by exact E; simpl; rewrite named_self; reflexivity.
Qed.

Lemma get_set_other l k v k' :
  k' <> k -> searchParams_get (searchParams_set l k v) k' = searchParams_get l k'.
Proof.
  intros H; unfold searchParams_get, searchParams_set.
  destruct (existsb (named k) l) eqn:E.
  - rewrite find_set_first_other by exact H; reflexivity.
  - induction l as [|p l IH]; simpl.
    + rewrite named_other by exact H; reflexivity.
    + simpl in E; apply orb_false_iff in E as [_ E].
      destruct (named k' p); [reflexivity|exact (IH E)].
Qed.

Lemma filter_set_same k v (l : params) :
  filter (named k) (searchParams_set l k v) = [(k, v)].
Proof.
  unfold searchParams_set; destruct (existsb (named k) l) eqn:E.
  - induction l as [|p l IH]; simpl in *; [discriminate|].
    destruct (named k p) eqn:K; simpl.
    + rewrite named_self; f_equal; exact (filter_named_not_named k l).
    + rewrite K; exact (IH E).
  - rewrite filter_app, filter_absent by exact E; simpl; rewrite named_self; reflexivity.
Qed.

Lemma filter_set_other k k' v (l : params) :
  k' <> k -> filter (named k') (searchParams_set l k v) = filter (named k') l.
Proof.
  intros H; unfold searchParams_set; destruct (existsb (named k) l).
  - induction l as [|p l IH]; simpl; [reflexivity|].
    destruct (named k p) eqn:K; simpl.
    + rewrite (named_other k' k v H), (named_excl k' k p H K).
      exact (filter_named_other k' k l H).
    + destruct (named k' p); rewrite IH; reflexivity.
  - rewrite filter_app; simpl; rewrite (named_other k' k v H), app_nil_r; reflexivity.
Qed.

Lemma existsb_set_first_same k v (l : params) :
  existsb (named k) (set_first k v l) = existsb (named k) l.
Proof.
  induction l as [|p l IH]; simpl; [reflexivity|].
  destruct (named k p) eqn:K; simpl; [rewrite named_self; reflexivity|rewrite K; exact IH].
Qed.

Lemma existsb_set_first_other a b y (l : params) :
  a <> b -> existsb (named a) (set_first b y l) = existsb (named a) l.
Proof.
  intros H; induction l as [|p l IH]; simpl; [reflexivity|].
  destruct (named b p) eqn:B; simpl.
  - rewrite (named_other a b y H), (named_excl a b p H B).
    exact (existsb_not_named_other a b l H).
  - rewrite IH; reflexivity.
Qed.

Lemma filter_set_first_comm a b y (l : params) :
  a <> b ->
  filter (fun q => negb (named a q)) (set_first b y l) = set_first b y (filter (fun q => negb (named a q)) l).
Proof.
  intros H; induction l as [|p l IH]; simpl; [reflexivity|].
  destruct (named b p) eqn:B.
  - assert (A : named a p = false) by exact (named_excl a b p H B).
    simpl; rewrite (named_other a b y H), A; simpl.
    rewrite B; f_equal; apply filter_comm.
  - simpl; destruct (named a p) eqn:A; simpl.
    + exact IH.
    + rewrite B, IH; reflexivity.
Qed.

Lemma set_first_comm a b z y (l : params) :
  a <> b -> set_first a z (set_first b y l) = set_first b y (set_first a z l).
Proof.
  intros H; induction l as [|p l IH]; simpl; [reflexivity|].
  destruct (named b p) eqn:B, (named a p) eqn:A.
  - rewrite (named_excl a b p H B) in A; discriminate.
  - simpl; rewrite (named_other a b y H), ?A, ?B; f_equal;
      first [apply filter_set_first_comm | symmetry; apply filter_set_first_comm]; congruence.
  - simpl; rewrite (named_other b a z ltac:(congruence)), ?A, ?B; f_equal;
      first [apply filter_set_first_comm | symmetry; apply filter_set_first_comm]; congruence.
  - simpl; rewrite A, B, IH; reflexivity.
Qed.

Lemma set_first_app k v (l m : params) :
  existsb (named k) l = true ->
  set_first k v (l ++ m)%list = (set_first k v l ++ filter (fun q => negb (named k q)) m)%list.
Proof.
  induction l as [|p l IH]; simpl; [discriminate|].
  destruct (named k p) eqn:K; simpl.
  - intros _; rewrite filter_app; reflexivity.
  - intros E; rewrite IH by exact E; reflexivity.
Qed.

Lemma set_first_absent_app k v (l m : params) :
  existsb (named k) l = false -> set_first k v (l ++ m)%list = (l ++ set_first k v m)%list.
Proof.
  induction l as [|p l IH]; simpl; [reflexivity|].
  destruct (named k p); [discriminate|intros E; rewrite IH by exact E; reflexivity].
Qed.

Lemma set_first_twice k v1 v2 (l : params) :
  set_first k v2 (set_first k v1 l) = set_first k v2 l.
Proof.
  induction l as [|p l IH]; simpl; [reflexivity|].
  destruct (named k p) eqn:K; simpl.
  - rewrite named_self; f_equal; apply filter_idem.
  - rewrite K, IH; reflexivity.
Qed.

Lemma set_set_same l k v1 v2 :
  searchParams_set (searchParams_set l k v1) k v2 = searchParams_set l k v2.
Proof.
  unfold searchParams_set.
  destruct (existsb (named k) l) eqn:E.
  - rewrite existsb_set_first_same, E, set_first_twice; reflexivity.
  - rewrite existsb_app, E; simpl; rewrite named_self.
    rewrite set_first_absent_app by exact E; simpl; rewrite named_self; reflexivity.
Qed.

Lemma set_comm_present l a b z y :
  a <> b -> existsb (named a) l = true ->
  searchParams_set (searchParams_set l b y) a z
  = searchParams_set (searchParams_set l a z) b y.
Proof.
  intros H Ha; unfold searchParams_set; rewrite Ha.
  destruct (existsb (named b) l) eqn:Hb.
  - rewrite (existsb_set_first_other a b y l H), Ha.
    rewrite (existsb_set_first_other b a z l ltac:(congruence)), Hb.
    apply set_first_comm; exact H.
  - rewrite existsb_app, Ha; simpl.
    rewrite (existsb_set_first_other b a z l ltac:(congruence)), Hb.
    rewrite set_first_app by exact Ha; simpl.
    rewrite (named_other a b y H); reflexivity.
Qed.

(** With nothing failing, every step completes. *)
Lemma all_step_settled (out : effect -> outcome) es :
  (forall e, out e = Settled) -> all_step out es = (es, Completes).
Proof.
  intros H.
  assert (F : forall f : outcome -> bool, f Settled = false ->
              existsb (fun e => f (out e)) es = false).
  { intros f Hf; induction es as [|e es IH]; simpl; [reflexivity|].
    rewrite H, Hf, IH; reflexivity. }
  unfold all_step; rewrite (F is_failed), (F is_pending) by reflexivity; reflexivity.
Qed.


Lemma existsb_failed_map {A} (out : effect -> outcome) (f : A -> effect) xs :
  existsb (fun e => is_failed (out e)) (map f xs) = true
  <-> exists x, In x xs /\ out (f x) = Failed.
Proof.
  rewrite existsb_exists; split.
  - intros [e [He Fe]]; apply in_map_iff in He as [x [<- Hx]].
    exists x; split; [exact Hx|destruct (out (f x)); easy].
  - intros [x [Hx Fx]]; exists (f x); split; [apply in_map; exact Hx|rewrite Fx; reflexivity].
Qed.

Lemma existsb_pending_map {A} (out : effect -> outcome) (f : A -> effect) xs :
  existsb (fun e => is_pending (out e)) (map f xs) = true
  <-> exists x, In x xs /\ out (f x) = Pending.
Proof.
  rewrite existsb_exists; split.
  - intros [e [He Fe]]; apply in_map_iff in He as [x [<- Hx]].
    exists x; split; [exact Hx|destruct (out (f x)); easy].
  - intros [x [Hx Fx]]; exists (f x); split; [apply in_map; exact Hx|rewrite Fx; reflexivity].
Qed.







End SearchParams.

(** X15 ([aggressiveFirebaseRecovery], firebase.ts lines 279-284): the
    query the page reloads with holds exactly one [cache_bust], equal to
    the time, and exactly one [force_reload], equal to "true"; every other
    parameter reads as before. *)
Theorem X15_reload_query : forall query now,
  Recovery.searchParams_get (Recovery.reload_query query now) "cache_bust"
    = Some (JS.Z_to_string now)
  /\ Recovery.searchParams_get (Recovery.reload_query query now) "force_reload" = Some "true"
  /\ length (filter (Recovery.named "cache_bust") (Recovery.reload_query query now)) = 1%nat
  /\ length (filter (Recovery.named "force_reload") (Recovery.reload_query query now)) = 1%nat
  /\ (forall k, k <> "cache_bust" -> k <> "force_reload" ->
        Recovery.searchParams_get (Recovery.reload_query query now) k
        = Recovery.searchParams_get query k).
Proof.
  intros query now; unfold Recovery.reload_query.
  split; [|split; [|split; [|split]]].
  - rewrite get_set_other by discriminate; apply get_set_same.
  - apply get_set_same.
  - rewrite filter_set_other by discriminate; rewrite filter_set_same; reflexivity.
  - rewrite filter_set_same; reflexivity.
  - intros k H1 H2; rewrite !get_set_other by assumption; reflexivity.
Qed.

Lemma X15_reload_query_witness :
  Recovery.searchParams_get (Recovery.reload_query [("id", "7"); ("cache_bust", "1")] 99) "id"
  = Recovery.searchParams_get [("id", "7"); ("cache_bust", "1")] "id".
Proof.
  apply (proj2 (proj2 (proj2 (proj2 (X15_reload_query [("id", "7"); ("cache_bust", "1")] 99))))
           "id"); discriminate.
Defined.

(** X16 ([aggressiveFirebaseRecovery], lines 279-284): recovering again
    from a page reached by a recovery does not pile up parameters: the
    query is the one a single recovery at the later time gives. *)
Theorem X16_recovery_query_no_pile_up : forall query t1 t2,
  Recovery.reload_query (Recovery.reload_query query t1) t2 = Recovery.reload_query query t2.
Proof.
  intros query t1 t2; unfold Recovery.reload_query.
  rewrite (set_comm_present
             (Recovery.searchParams_set query "cache_bust" (JS.Z_to_string t1))
             "cache_bust" "force_reload" (JS.Z_to_string t2) "true").
  - rewrite !set_set_same; reflexivity.
  - discriminate.
  - pose proof (get_set_same query "cache_bust" (JS.Z_to_string t1)) as G.
    unfold Recovery.searchParams_get in G.
    destruct (find (Recovery.named "cache_bust")
                   (Recovery.searchParams_set query "cache_bust" (JS.Z_to_string t1))) eqn:F;
      [|discriminate].
    apply existsb_exists; apply find_some in F as [F1 F2]; exists p; auto.
Qed.

(** X17 ([aggressiveFirebaseRecovery], [clearStorage] lines 239-277): when
    every operation returns or fulfils and the listings resolve, the
    recovery clears both storages, deletes every listed database,
    unregisters every service worker and deletes every cache, for each API
    the browser has, and then navigates. *)
Theorem X17_recovery_clears_everything : forall b out query now dbs n keys,
  (forall e, out e = Recovery.Settled) ->
  Recovery.databases b = Recovery.Lists dbs -> Recovery.registrations b = Recovery.Lists n ->
  Recovery.cache_keys b = Recovery.Lists keys ->
  Recovery.aggressiveFirebaseRecovery b out query now
  = ([Recovery.EClearLocal; Recovery.EClearSession]
     ++ (if Recovery.has_indexedDB b then map Recovery.EDeleteDatabase dbs else [])
     ++ (if Recovery.has_serviceWorker b then map Recovery.EUnregister (seq 0 n) else [])
     ++ (if Recovery.has_caches b then map Recovery.EDeleteCache keys else [])
     ++ [Recovery.ENavigate (Recovery.reload_query query now)])%list.
Proof.
  intros b out query now dbs n keys Hs Hd Hr Hk.
  unfold Recovery.aggressiveFirebaseRecovery, Recovery.clearStorage,
         Recovery.listing_step, Recovery.sync_step.
  rewrite Hd, Hr, Hk, !(all_step_settled out) by exact Hs.
  rewrite !Hs.
  destruct (Recovery.has_indexedDB b), (Recovery.has_serviceWorker b), (Recovery.has_caches b);
    simpl; rewrite ?app_nil_r, <- ?app_assoc; reflexivity.
Qed.

Lemma X17_recovery_clears_everything_witness :
  Recovery.aggressiveFirebaseRecovery
    {| Recovery.has_indexedDB := true; Recovery.databases := Recovery.Lists ["firestore"];
       Recovery.has_serviceWorker := true; Recovery.registrations := Recovery.Lists 2%nat;
       Recovery.has_caches := false; Recovery.cache_keys := Recovery.Lists [] |}
    (fun _ => Recovery.Settled) [] 5
  = ([Recovery.EClearLocal; Recovery.EClearSession]
     ++ map Recovery.EDeleteDatabase ["firestore"]
     ++ map Recovery.EUnregister (seq 0 2)
     ++ []
     ++ [Recovery.ENavigate (Recovery.reload_query [] 5)])%list.
Proof.
  apply (X17_recovery_clears_everything
           {| Recovery.has_indexedDB := true; Recovery.databases := Recovery.Lists ["firestore"];
              Recovery.has_serviceWorker := true; Recovery.registrations := Recovery.Lists 2%nat;
              Recovery.has_caches := false; Recovery.cache_keys := Recovery.Lists [] |}
           (fun _ => Recovery.Settled) [] 5 ["firestore"] 2%nat []); reflexivity.
Defined.



(** X20 ([aggressiveFirebaseRecovery], lines 239-287): a database
    deletion whose request never settles (blocked by an open connection)
    while no other deletion fails leaves the recovery waiting for ever:
    every deletion has been started, no service worker or cache is
    touched, and the page never navigates. *)
Theorem X20_blocked_deletion_never_reloads : forall b out query now dbs,
  out Recovery.EClearLocal <> Recovery.Failed ->
  out Recovery.EClearSession <> Recovery.Failed ->
  Recovery.has_indexedDB b = true -> Recovery.databases b = Recovery.Lists dbs ->
  (forall db, In db dbs -> out (Recovery.EDeleteDatabase db) <> Recovery.Failed) ->
  (exists db, In db dbs /\ out (Recovery.EDeleteDatabase db) = Recovery.Pending) ->
  Recovery.aggressiveFirebaseRecovery b out query now
  = ([Recovery.EClearLocal; Recovery.EClearSession] ++ map Recovery.EDeleteDatabase dbs)%list.
Proof.
  intros b out query now dbs H1 H2 H3 H4 Hf Hp.
  unfold Recovery.aggressiveFirebaseRecovery, Recovery.clearStorage,
    Recovery.sync_step, Recovery.listing_step, Recovery.all_step; rewrite H3, H4.
  destruct (existsb _ (map Recovery.EDeleteDatabase dbs)) eqn:F.
  - apply existsb_failed_map in F as [db [Hdb Fdb]]; exfalso; exact (Hf db Hdb Fdb).
  - apply existsb_pending_map in Hp; rewrite Hp.
    destruct (out Recovery.EClearLocal); try contradiction;
      destruct (out Recovery.EClearSession); try contradiction; simpl; rewrite app_nil_r;
      reflexivity.
Qed.

Lemma X20_blocked_deletion_never_reloads_witness :
  Recovery.aggressiveFirebaseRecovery
    {| Recovery.has_indexedDB := true;
       Recovery.databases := Recovery.Lists ["firestore/[DEFAULT]/main"];
       Recovery.has_serviceWorker := true; Recovery.registrations := Recovery.Lists 1%nat;
       Recovery.has_caches := true; Recovery.cache_keys := Recovery.Lists ["v1"] |}
    (fun e => match e with
              | Recovery.EDeleteDatabase _ => Recovery.Pending
              | _ => Recovery.Settled
              end) [] 5
  = ([Recovery.EClearLocal; Recovery.EClearSession]
     ++ map Recovery.EDeleteDatabase ["firestore/[DEFAULT]/main"])%list.
Proof.
  apply X20_blocked_deletion_never_reloads with (dbs := ["firestore/[DEFAULT]/main"]);
    [discriminate|discriminate|reflexivity|reflexivity| |].
  - intros db _; discriminate.
  - exists "firestore/[DEFAULT]/main"; split; [left; reflexivity|reflexivity].
Defined.

(** X19 (src/unnamed/part_000, [parseFrenchDate]): a zero-padded
    [DD/MM/YYYY] whose month is outside 01..12 or whose day is outside
    01..31 gives an invalid date, and the parser returns null
    (e.g. 15/13/2024, 00/06/2024, 32/01/2024). *)
Theorem X19_part000_out_of_range rt y m d :
  0 <= y <= 9999 -> 0 <= m <= 99 -> 0 <= d <= 99 ->
  (m < 1 \/ 12 < m \/ d < 1 \/ 31 < d) ->
  Part000.parseFrenchDate rt (Calendar.dmy y m d) = None.
Proof.
  intros Hy Hm Hd Hout.
  unfold Part000.parseFrenchDate.
  replace (String.eqb (Calendar.dmy y m d) "") with false.
  2:{ unfold Calendar.dmy.
      pose proof (pad2_reads d Hd) as R.
      destruct (Calendar.pad 2 d); [discriminate|reflexivity]. }
  cbv zeta; rewrite split_dmy by assumption.
  change (Calendar.pad 4 y ++ "-" ++ Calendar.pad 2 m ++ "-" ++ Calendar.pad 2 d)
    with (Calendar.ymd y m d).
  unfold Date.parse; rewrite iso_fields_ymd by assumption.
  unfold Date.fields_in_bounds; cbn [Date.f_month Date.f_day Date.f_hour Date.f_min
                                     Date.f_sec Date.f_ms].
  replace ((1 <=? m) && (m <=? 12) && (1 <=? d) && (d <=? 31)) with false; [reflexivity|].
  destruct (1 <=? m) eqn:A, (m <=? 12) eqn:B, (1 <=? d) eqn:C, (d <=? 31) eqn:D;
    try reflexivity; exfalso; rewrite ?Z.leb_le, ?Z.leb_gt in *; lia.
Qed.

Lemma X19_part000_out_of_range_witness :
  Part000.parseFrenchDate utc_runtime (Calendar.dmy 2024 13 15) = None.
Proof. apply X19_part000_out_of_range; lia. Defined.
